(** * pipe_tasks: coaddition of exposures and primary-source flags

    A shallow embedding of
      - [python/lsst/pipe/tasks/makeCoaddTempExp.py] (MakeCoaddTempExpTask),
      - [python/lsst/pipe/tasks/coadd.py]            (CoaddTask),
      - [python/lsst/pipe/tasks/processCoadd.py]     (ProcessCoaddTask.setIsPrimaryFlag).

    Conventions of the embedding.
      - Python floats are idealised as real numbers ([R]); rounding, NaN and
        infinities are outside the model.  Tests on floats are the decidable
        comparisons of [R] turned into booleans.
      - Python exceptions are values of [Exn]; a computation that may raise
        returns a [result].  Code that also logs or writes to the data
        repository runs in the monad [M], which threads a [World]; what was
        logged or written before an exception is raised stays in the world.
      - Collaborators that live outside the repository (butler, warper, PSF
        matcher, zero point scaler, sky map) are fields of an environment
        record and are arbitrary in every theorem. *)

From Stdlib Require Import Reals Lra ZArith Lia List String Bool Arith.
Import ListNotations.

Set Implicit Arguments.

Open Scope string_scope.
Open Scope Z_scope.

(** ** Exceptions and results *)

Inductive Exn : Type :=
  (* raised by the code of the repository or by the interpreter *)
  | TaskError (msg : string)
  | RuntimeError (msg : string)
  | NameError (name : string)
  | AttributeError (attr : string)
  | UnboundLocalError (name : string)
  | ZeroDivisionError
  | TypeError (what : string)
  (* raised by collaborators; the names are those of the specification *)
  | LoadFailure
  | PsfMatchFailure
  | NoOverlap
  | CalibrationMissing
  | InvalidParameter
  | LookupFailure (what : string).

Inductive result (A : Type) : Type :=
  | Ok (a : A)
  | Raise (e : Exn).

Arguments Ok {A} a.
Arguments Raise {A} e.

Definition is_ok {A} (r : result A) : bool :=
  match r with Ok _ => true | Raise _ => false end.

Definition rbind {A B} (r : result A) (k : A -> result B) : result B :=
  match r with
  | Ok a => k a
  | Raise e => Raise e
  end.

(** ** Floats as reals *)

Definition Rltb (x y : R) : bool := if Rlt_dec x y then true else false.
Definition Rleb (x y : R) : bool := if Rle_dec x y then true else false.
Definition Reqb (x y : R) : bool := if Req_dec_T x y then true else false.

(** Python's [x / y] on floats raises when the divisor is zero. *)
Definition pydiv (x y : R) : result R :=
  if Reqb y 0 then Raise ZeroDivisionError else Ok (x / y)%R.

(** [int(round(x))] of Python 2: to the nearest integer, halves away from zero. *)
Definition pyround_int (x : R) : Z :=
  if Rleb 0 x then (up (x + / 2) - 1)%Z else (- (up (- x + / 2) - 1))%Z.

(** ** Geometry (lsst.afw.geom) *)

Record Point2D : Type := mkPoint2D { pt_x : R; pt_y : R }.

(** An integer box with inclusive bounds. *)
Record Box2I : Type := mkBox2I { bi_minX : Z; bi_minY : Z; bi_maxX : Z; bi_maxY : Z }.

Record Box2D : Type := mkBox2D { bd_minX : R; bd_minY : R; bd_maxX : R; bd_maxY : R }.

(** [afwGeom.Box2D(box2i)]: a pixel of index [i] covers [i - 1/2, i + 1/2). *)
Definition Box2D_of_Box2I (b : Box2I) : Box2D :=
  mkBox2D (IZR (bi_minX b) - / 2) (IZR (bi_minY b) - / 2)
          (IZR (bi_maxX b) + / 2) (IZR (bi_maxY b) + / 2).

(** [Box2D.contains(point)]: half-open, the upper edges are excluded. *)
Definition Box2D_contains (b : Box2D) (p : Point2D) : bool :=
  Rleb (bd_minX b) (pt_x p) && Rltb (pt_x p) (bd_maxX b) &&
  Rleb (bd_minY b) (pt_y p) && Rltb (pt_y p) (bd_maxY b).

(** A position on the sky. *)
Record Coord : Type := mkCoord { ra : R; dec : R }.

(** * processCoadd.py *)

Module ProcessCoadd.

(** The part of [ProcessCoaddConfig] that [setIsPrimaryFlag] reads. *)
Record Config : Type := mkConfig {
  coaddName : string;
  doDeblend : bool
}.

(** A schema is the list of its field names; the key of a field is its
    position. [schema.find(name)] raises when the name is not a field. *)
Definition Schema : Type := list string.
Definition Key : Type := nat.

Fixpoint schema_find_from (i : nat) (schema : Schema) (name : string) : result Key :=
  match schema with
  | [] => Raise (LookupFailure name)
  | f :: rest => if String.eqb f name then Ok i else schema_find_from (S i) rest name
  end.

Definition schema_find (schema : Schema) (name : string) : result Key :=
  schema_find_from 0 schema name.

(** A record of the source table: the fields [setIsPrimaryFlag] reads and
    the three flags it writes.  [src_nChild] is the value stored under
    [deblend_nChild]; it is read only through a key found in the schema. *)
Record Source : Type := mkSource {
  src_centroidFlag : bool;
  src_centroid : Point2D;
  src_coord : Coord;
  src_nChild : Z;
  detect_isPatchInner : bool;
  detect_isTractInner : bool;
  detect_isPrimary : bool
}.

Definition set_isPatchInner (s : Source) (v : bool) : Source :=
  mkSource (src_centroidFlag s) (src_centroid s) (src_coord s) (src_nChild s)
           v (detect_isTractInner s) (detect_isPrimary s).

Definition set_isTractInner (s : Source) (v : bool) : Source :=
  mkSource (src_centroidFlag s) (src_centroid s) (src_coord s) (src_nChild s)
           (detect_isPatchInner s) v (detect_isPrimary s).

Definition set_isPrimary (s : Source) (v : bool) : Source :=
  mkSource (src_centroidFlag s) (src_centroid s) (src_coord s) (src_nChild s)
           (detect_isPatchInner s) (detect_isTractInner s) v.

(** What [setIsPrimaryFlag] reads of [skyInfo]: the inner box of the patch,
    the id of the tract, and the sky map's [findTract(coord).getId()]. *)
Record SkyInfo : Type := mkSkyInfo {
  patchInnerBBox : Box2I;
  tractId : Z;
  findTractId : Coord -> Z
}.

Definition nChildKeyName : string := "deblend_nChild".

(** [try: nChildKey = self.schema.find(name).key; except Exception: nChildKey = None] *)
Definition find_nChildKey (schema : Schema) : option Key :=
  match schema_find schema nChildKeyName with
  | Ok k => Some k
  | Raise _ => None
  end.

(** The body of the loop over the sources (lines 176-190). *)
Definition classify (nChildKey : option Key) (innerFloatBBox : Box2D)
           (skyInfo : SkyInfo) (source : Source) : Source :=
  if src_centroidFlag source then
    (* centroid unknown: [continue] *)
    source
  else
    let isPatchInner := Box2D_contains innerFloatBBox (src_centroid source) in
    let source := set_isPatchInner source isPatchInner in
    let sourceInnerTractId := findTractId skyInfo (src_coord source) in
    let isTractInner := Z.eqb sourceInnerTractId (tractId skyInfo) in
    let source := set_isTractInner source isTractInner in
    if match nChildKey with
       | None => true
       | Some _ => Z.eqb (src_nChild source) 0
       end
    then set_isPrimary source (isPatchInner && isTractInner)
    else source.

Definition setIsPrimaryFlag (config : Config) (schema : Schema)
           (sources : list Source) (skyInfo : SkyInfo) : result (list Source) :=
  let nChildKey := find_nChildKey schema in
  if doDeblend config && match nChildKey with None => true | Some _ => false end then
    Raise (RuntimeError "Ran the deblender but cannot find 'deblend_nChild' in the source table")
  else
    let innerFloatBBox := Box2D_of_Box2I (patchInnerBBox skyInfo) in
    Ok (map (classify nChildKey innerFloatBBox skyInfo) sources).

End ProcessCoadd.

(** * Data shared by makeCoaddTempExp.py and coadd.py *)

(** A world coordinate system, as far as the tasks look into it:
    [wcs.pixelScale().asArcseconds()]. *)
Record Wcs : Type := mkWcs { wcs_id : Z; pixelScaleArcsec : R }.

(** A PSF descriptor: the name of the model, the dimensions of its kernel
    and, for a double Gaussian, the widths of core and wings and the ratio
    [b] of the peak amplitude of the wings to that of the core. *)
Record Psf : Type := mkPsf {
  psf_name : string;
  psf_width : Z;
  psf_height : Z;
  psf_sigma1 : R;
  psf_sigma2 : R;
  psf_b : R
}.

(** [psf.getKernel().getDimensions()] *)
Definition kernelDimensions (p : Psf) : Z * Z := (psf_width p, psf_height p).

(** An exposure: three co-registered planes, the box they cover, a
    coordinate system, an optional PSF and the photometric calibration
    (the flux of a source of magnitude zero). *)
Record Exposure : Type := mkExposure {
  exp_image : list R;
  exp_mask : list Z;
  exp_variance : list R;
  exp_bbox : Box2I;
  exp_wcs : Wcs;
  exp_psf : option Psf;
  exp_fluxMag0 : R
}.

(** [exposure.setPsf(psf)] *)
Definition setPsf (e : Exposure) (p : Psf) : Exposure :=
  mkExposure (exp_image e) (exp_mask e) (exp_variance e) (exp_bbox e) (exp_wcs e)
             (Some p) (exp_fluxMag0 e).

(** [exposure.getPsf().getKernel()]: without a PSF, [getPsf()] is [None]. *)
Definition getPsfKernel (e : Exposure) : result Psf :=
  match exp_psf e with
  | Some p => Ok p
  | None => Raise (AttributeError "getKernel")
  end.

(** A data id is a dictionary from key names to values. *)
Definition DataId : Type := list (string * string).

Fixpoint dict_set (d : DataId) (k v : string) : DataId :=
  match d with
  | [] => [(k, v)]
  | (k', v') :: rest =>
      if String.eqb k' k then (k, v) :: rest else (k', v') :: dict_set rest k v
  end.

(** [d.update(other)] on a copy of [d]. *)
Definition dict_update (d other : DataId) : DataId :=
  fold_left (fun acc kv => dict_set acc (fst kv) (snd kv)) other d.

Inductive Dataset : Type :=
  | DsExposure (e : Exposure)
  | DsPsf (p : Psf).

(** ** The world: log and data repository *)

Inductive Level : Type := DEBUG | INFO | WARN.

(** One constructor per format string of the two tasks, with its arguments. *)
Inductive Msg : Type :=
  | MsgCoaddCalexp (numExp : nat)
  | MsgNoPsfMatching
  | MsgNoPsfMatchingLe0
  | MsgCouldNotFind (id : DataId)
  | MsgProcessing (ind numExp : nat) (id : DataId)
  | MsgErrorPreprocessing (id : DataId) (e : Exn)
  | MsgPersisting (psfName : string)
  | MsgCreateModel (fwhm : R) (width height : Z)
  | MsgPsfMatch
  | MsgWarp.

Record StoreEntry : Type := mkStoreEntry {
  se_datasetType : string;
  se_dataId : DataId;
  se_dataset : Dataset
}.

Record World : Type := mkWorld {
  w_log : list (Level * Msg);
  w_store : list StoreEntry
}.

Definition emptyWorld : World := mkWorld [] [].

(** Computations that log, write and may raise. *)
Definition M (A : Type) : Type := World -> World * result A.

Definition ret {A} (a : A) : M A := fun w => (w, Ok a).

Definition raise {A} (e : Exn) : M A := fun w => (w, Raise e).

Definition bind {A B} (m : M A) (k : A -> M B) : M B :=
  fun w =>
    match m w with
    | (w', Ok a) => k a w'
    | (w', Raise e) => (w', Raise e)
    end.

Definition lift {A} (r : result A) : M A := fun w => (w, r).

(** [try: m  except Exception, e: ...]: every exception of the model is a
    subclass of [Exception], so the handler sees all of them. *)
Definition try {A} (m : M A) : M (result A) :=
  fun w => let (w', r) := m w in (w', Ok r).

Definition log (lvl : Level) (msg : Msg) : M unit :=
  fun w => (mkWorld (w_log w ++ [(lvl, msg)]) (w_store w), Ok tt).

Definition store (datasetType : string) (id : DataId) (d : Dataset) : M unit :=
  fun w => (mkWorld (w_log w) (w_store w ++ [mkStoreEntry datasetType id d]), Ok tt).

Declare Scope m_scope.
Delimit Scope m_scope with M.
Notation "x <- m ;; k" := (bind m (fun x => k))
  (at level 100, m at next level, right associativity) : m_scope.
Notation "m ;; k" := (bind m (fun _ => k))
  (at level 100, right associativity) : m_scope.
Open Scope m_scope.

(** ** Names of a module *)

(** What a global name of the two modules can be bound to. *)
Inductive PyObj : Type :=
  | PyModule (name : string)
  | PyClass (name : string)
  | PyFloat (x : R)
  | PyStrList (l : list string)
  | PyPolicy (entries : list (string * string))
  | PyBuiltin (name : string).

(** Names of Python 2 built-ins (functions, constants and exceptions). *)
Definition builtin_names : list string :=
  [ "abs"; "all"; "any"; "apply"; "basestring"; "bin"; "bool"; "buffer";
    "bytearray"; "bytes"; "callable"; "chr"; "classmethod"; "cmp"; "coerce";
    "compile"; "complex"; "delattr"; "dict"; "dir"; "divmod"; "enumerate";
    "eval"; "execfile"; "file"; "filter"; "float"; "format"; "frozenset";
    "getattr"; "globals"; "hasattr"; "hash"; "help"; "hex"; "id"; "input";
    "int"; "intern"; "isinstance"; "issubclass"; "iter"; "len"; "list";
    "locals"; "long"; "map"; "max"; "memoryview"; "min"; "next"; "object";
    "oct"; "open"; "ord"; "pow"; "print"; "property"; "range"; "raw_input";
    "reduce"; "reload"; "repr"; "reversed"; "round"; "set"; "setattr";
    "slice"; "sorted"; "staticmethod"; "str"; "sum"; "super"; "tuple";
    "type"; "unichr"; "unicode"; "vars"; "xrange"; "zip"; "__import__";
    "True"; "False"; "None"; "Ellipsis"; "NotImplemented"; "__debug__";
    "BaseException"; "Exception"; "StandardError"; "ArithmeticError";
    "AssertionError"; "AttributeError"; "EnvironmentError"; "EOFError";
    "FloatingPointError"; "GeneratorExit"; "IOError"; "ImportError";
    "IndexError"; "KeyError"; "KeyboardInterrupt"; "LookupError";
    "MemoryError"; "NameError"; "NotImplementedError"; "OSError";
    "OverflowError"; "ReferenceError"; "RuntimeError"; "StopIteration";
    "SyntaxError"; "SystemError"; "SystemExit"; "TypeError";
    "UnboundLocalError"; "UnicodeError"; "ValueError"; "ZeroDivisionError";
    "Warning"; "UserWarning"; "DeprecationWarning" ].

Definition Globals : Type := list (string * PyObj).

Fixpoint assoc {A} (l : list (string * A)) (name : string) : option A :=
  match l with
  | [] => None
  | (k, v) :: rest => if String.eqb k name then Some v else assoc rest name
  end.

(** A name that is no local variable of the function is looked up in the
    globals of the module, then among the built-ins. *)
Definition lookup_name (globals : Globals) (name : string) : result PyObj :=
  match assoc globals name with
  | Some o => Ok o
  | None =>
      if existsb (String.eqb name) builtin_names then Ok (PyBuiltin name)
      else Raise (NameError name)
  end.

(** ** The double Gaussian model of lsst.afw.detection *)

(** Modelled from the spec: [afwDetection.createPsf] belongs to lsst.afw and
    is not part of the repository.  The specification gives its contract:
    the builder "fails with InvalidParameter when FWHM <= 0 or dimensions are
    non-positive", and otherwise yields the kernel described by the widths of
    core and wings and the ratio of their peak amplitudes.  A width is
    positive exactly when the corresponding FWHM is. *)
Definition createPsf (name : string) (width height : Z)
           (sigma1 sigma2 b : R) : result Psf :=
  if (width <=? 0) || (height <=? 0) then Raise InvalidParameter
  else if Rleb sigma1 0 || Rleb sigma2 0 then Raise InvalidParameter
  else Ok (mkPsf name width height sigma1 sigma2 b).

(** Modelled from the spec: the two components of the kernel of a double
    Gaussian at distance [r] from the centre, before normalisation; the core
    has peak amplitude 1 and the wings [b]. *)
Definition coreProfile (p : Psf) (r : R) : R :=
  exp (- (r * r) / (2 * (psf_sigma1 p * psf_sigma1 p))).

(** Modelled from the spec: the wings of the same kernel, "a wing Gaussian
    at 2.5x that standard deviation with peak amplitude 0.1x the core's". *)
Definition wingProfile (p : Psf) (r : R) : R :=
  psf_b p * exp (- (r * r) / (2 * (psf_sigma2 p * psf_sigma2 p))).

(** [FWHMPerSigma = 2 * math.sqrt(2 * math.log(2))], in both modules *)
Definition FWHMPerSigma : R := 2 * sqrt (2 * ln 2).

(** * makeCoaddTempExp.py *)

Module MakeCoaddTempExp.

(** [MakeCoaddTempExpConfig]; the fields [select], [psfMatch] and [warp]
    configure collaborators and are part of the environment. *)
Record Config : Type := mkConfig {
  coaddName : string;
  desiredFwhm : option R;
  coaddZeroPoint : R;
  doWrite : bool
}.

Definition config_fields : list string :=
  [ "coaddName"; "select"; "desiredFwhm"; "coaddZeroPoint"; "psfMatch"; "warp"; "doWrite" ].

(** [self.config.<name>] read as a factor of a float product: a name that
    is no field of the configuration class raises [AttributeError]. *)
Definition config_float (config : Config) (name : string) : result R :=
  if String.eqb name "coaddZeroPoint" then Ok (coaddZeroPoint config)
  else if existsb (String.eqb name) config_fields then Raise (TypeError name)
  else Raise (AttributeError name).

(** A data reference of the butler for one calibrated exposure. *)
Record DataRef : Type := mkDataRef {
  dataId : DataId;
  calexpExists : bool;            (* [datasetExists("calexp")] *)
  get_calexp : result Exposure;   (* [get("calexp")] *)
  get_psf : result Psf            (* [get("psf")] *)
}.

Record PatchRef : Type := mkPatchRef { patch_dataId : DataId }.

(** The fields of the result of [getSkyInfo] that [run] uses. *)
Record SkyInfo : Type := mkSkyInfo { wcs : Wcs; bbox : Box2I }.

(** A data reference made by [butler.dataRef(datasetType, dataId)]. *)
Record OutRef : Type := mkOutRef { out_datasetType : string; out_dataId : DataId }.

Record Struct : Type := mkStruct { dataRefList : list OutRef }.

(** The collaborators of the task.  [getSkyInfo] consists of calls to the
    repository and to the sky map only; its outcome is taken as given. *)
Record Env : Type := mkEnv {
  env_getSkyInfo : PatchRef -> result SkyInfo;
  env_pixelToSky : Wcs -> Point2D -> Coord;
  env_selectRunDataRef : PatchRef -> list Coord -> result (list DataRef);
  env_psfMatch : Exposure -> Psf -> result Exposure;
  env_warpExposure : Wcs -> Exposure -> option Box2I -> option Box2I -> result Exposure;
  env_scaleExposure : R -> Exposure -> result Exposure;
  env_put : string -> DataId -> Dataset -> result unit
}.

(** [ref.put(object, datasetType)] *)
Definition put (env : Env) (datasetType : string) (id : DataId) (d : Dataset) : M unit :=
  lift (env_put env datasetType id d) ;;
  store datasetType id d.

(** The global names of the module. *)
Definition module_globals : Globals :=
  [ ("__name__", PyBuiltin "__name__"); ("__doc__", PyBuiltin "__doc__");
    ("__file__", PyBuiltin "__file__"); ("__package__", PyBuiltin "__package__");
    ("__builtins__", PyModule "__builtin__");
    ("math", PyModule "math");
    ("pexConfig", PyModule "lsst.pex.config");
    ("afwDetection", PyModule "lsst.afw.detection");
    ("afwGeom", PyModule "lsst.afw.geom");
    ("afwMath", PyModule "lsst.afw.math");
    ("measAlg", PyModule "lsst.meas.algorithms");
    ("coaddUtils", PyModule "lsst.coadd.utils");
    ("pipeBase", PyModule "lsst.pipe.base");
    ("ipIsr", PyModule "lsst.ip.isr");
    ("ModelPsfMatchTask", PyClass "ModelPsfMatchTask");
    ("BadSelectImagesTask", PyClass "BadSelectImagesTask");
    ("__all__", PyStrList ["MakeCoaddTempExpTask"; "CoaddArgumentParser"]);
    ("FWHMPerSigma", PyFloat FWHMPerSigma);
    ("MakeCoaddTempExpConfig", PyClass "MakeCoaddTempExpConfig");
    ("MakeCoaddTempExpTask", PyClass "MakeCoaddTempExpTask");
    ("CoaddArgumentParser", PyClass "CoaddArgumentParser") ].

(** [obj.getWcs()] on an object bound to a global name: modules, classes,
    floats and lists have no such attribute. *)
Definition obj_getWcs (o : PyObj) : result Wcs := Raise (AttributeError "getWcs").

(** [afwGeom.Box2D(bbox).getCorners()] *)
Definition getCorners (b : Box2I) : list Point2D :=
  let d := Box2D_of_Box2I b in
  [ mkPoint2D (bd_minX d) (bd_minY d); mkPoint2D (bd_maxX d) (bd_minY d);
    mkPoint2D (bd_maxX d) (bd_maxY d); mkPoint2D (bd_minX d) (bd_maxY d) ].

Definition selectExposures (env : Env) (patchRef : PatchRef) (wcs : Wcs)
           (bbox : Box2I) : result (list DataRef) :=
  let cornerPosList := getCorners bbox in
  let coordList := map (env_pixelToSky env wcs) cornerPosList in
  env_selectRunDataRef env patchRef coordList.

Definition getCalExp (dataRef : DataRef) (getPsf : bool) : result Exposure :=
  rbind (get_calexp dataRef) (fun exposure =>
  if getPsf then
    rbind (get_psf dataRef) (fun psf => Ok (setPsf exposure psf))
  else Ok exposure).

Definition makeModelPsf (fwhmPixels : R) (kernelDim : Z * Z) : M Psf :=
  log DEBUG (MsgCreateModel fwhmPixels (fst kernelDim) (snd kernelDim)) ;;
  let coreSigma := (fwhmPixels / FWHMPerSigma)%R in
  lift (createPsf "DoubleGaussian" (fst kernelDim) (snd kernelDim)
                  coreSigma (coreSigma * 2.5)%R 0.1%R).

Definition preprocessExposure (config : Config) (env : Env) (exposure : Exposure)
           (wcs : Wcs) (maxBBox destBBox : option Box2I) : M Exposure :=
  exposure <-
    match desiredFwhm config with
    | Some fwhm =>
        log INFO MsgPsfMatch ;;
        fwhmPixels <- lift (pydiv fwhm (pixelScaleArcsec wcs)) ;;
        psf <- lift (getPsfKernel exposure) ;;
        let kernelDim := kernelDimensions psf in
        modelPsf <- makeModelPsf fwhmPixels kernelDim ;;
        lift (env_psfMatch env exposure modelPsf)
    | None => ret exposure
    end ;;
  log INFO MsgWarp ;;
  exposure <- lift (env_warpExposure env wcs exposure maxBBox destBBox) ;;
  (* [self.zeroPointScaler.scaleExposure(exposure)] changes the exposure in place *)
  exposure <- lift (env_scaleExposure env (coaddZeroPoint config) exposure) ;;
  ret exposure.

(** Lines 156-163: persist [<coaddName>Coadd_initPsf].  [coaddExposure] is
    no local variable of [run]; the new value of [wcs] is returned. *)
Definition persistInitPsf (config : Config) (env : Env) (patchRef : PatchRef)
           (fwhm : R) : M Wcs :=
  let psfName := coaddName config ++ "Coadd_initPsf" in
  log INFO (MsgPersisting psfName) ;;
  coaddExposure <- lift (lookup_name module_globals "coaddExposure") ;;
  wcs <- lift (obj_getWcs coaddExposure) ;;
  fwhmPixels <- lift (pydiv fwhm (pixelScaleArcsec wcs)) ;;
  factor <- lift (config_float config "coaddKernelSizeFactor") ;;
  let kernelSize := pyround_int (fwhmPixels * factor) in
  let kernelDim := (kernelSize, kernelSize) in
  coaddPsf <- makeModelPsf fwhmPixels kernelDim ;;
  put env psfName (patch_dataId patchRef) (DsPsf coaddPsf) ;;
  ret wcs.

(** The body of the loop of [run] (lines 132-165) for the exposure
    [calExpRef] at position [ind] of the list.  The variables that live
    across iterations are [wcs] and [dataRefList]; the body returns their
    values at the end of the iteration, unchanged after a [continue]. *)
Definition loop_body (config : Config) (env : Env) (patchRef : PatchRef) (bbox : Box2I)
           (numExp : nat) (doPsfMatch : bool) (tempExpName : string)
           (ind : nat) (calExpRef : DataRef)
           (wcs : Wcs) (dataRefList : list OutRef) : M (Wcs * list OutRef) :=
  if negb (calexpExists calExpRef) then
    log WARN (MsgCouldNotFind (dataId calExpRef)) ;;
    ret (wcs, dataRefList)
  else
    log INFO (MsgProcessing (ind + 1) numExp (dataId calExpRef)) ;;
    exposure <- lift (getCalExp calExpRef doPsfMatch) ;;
    r <- try (preprocessExposure config env exposure wcs None (Some bbox)) ;;
    match r with
    | Raise e =>
        log WARN (MsgErrorPreprocessing (dataId calExpRef) e) ;;
        ret (wcs, dataRefList)
    | Ok exposure =>
        let tempExpId := dict_update (dataId calExpRef) (patch_dataId patchRef) in
        let tempExpRef := mkOutRef tempExpName tempExpId in
        wcs <-
          (if doWrite config then
             put env tempExpName tempExpId (DsExposure exposure) ;;
             match desiredFwhm config with
             | Some fwhm => persistInitPsf config env patchRef fwhm
             | None => ret wcs
             end
           else ret wcs) ;;
        ret (wcs, (dataRefList ++ [tempExpRef])%list)
    end.

(** [for ind, calExpRef in enumerate(imageRefList)], from position [ind] on. *)
Fixpoint run_loop (config : Config) (env : Env) (patchRef : PatchRef) (bbox : Box2I)
         (numExp : nat) (doPsfMatch : bool) (tempExpName : string)
         (ind : nat) (imageRefList : list DataRef)
         (wcs : Wcs) (dataRefList : list OutRef) {struct imageRefList} : M (list OutRef) :=
  match imageRefList with
  | [] => ret dataRefList
  | calExpRef :: rest =>
      st <- loop_body config env patchRef bbox numExp doPsfMatch tempExpName
                      ind calExpRef wcs dataRefList ;;
      run_loop config env patchRef bbox numExp doPsfMatch tempExpName
               (S ind) rest (fst st) (snd st)
  end.

Definition run (config : Config) (env : Env) (patchRef : PatchRef) : M Struct :=
  skyInfo <- lift (env_getSkyInfo env patchRef) ;;
  let wcs := wcs skyInfo in
  let bbox := bbox skyInfo in
  imageRefList <- lift (selectExposures env patchRef wcs bbox) ;;
  (* initialize outputs *)
  let dataRefList := [] in
  let numExp := List.length imageRefList in
  if (numExp <? 1)%nat then raise (TaskError "No exposures to coadd")
  else
    log INFO (MsgCoaddCalexp numExp) ;;
    let doPsfMatch := match desiredFwhm config with Some _ => true | None => false end in
    (if negb doPsfMatch then log INFO MsgNoPsfMatching else ret tt) ;;
    let tempExpName := coaddName config ++ "Coadd_tempExp" in
    dataRefList <- run_loop config env patchRef bbox numExp doPsfMatch tempExpName
                            0 imageRefList wcs dataRefList ;;
    ret (mkStruct dataRefList).

(** [doPsfMatch = self.config.desiredFwhm is not None] *)
Definition doPsfMatch (config : Config) : bool :=
  match desiredFwhm config with Some _ => true | None => false end.

(** The outcome and the log of preprocessing one exposure as [run] calls it. *)
Definition preprocess_result (config : Config) (env : Env) (exposure : Exposure)
           (wcs : Wcs) (bbox : Box2I) : result Exposure :=
  snd (preprocessExposure config env exposure wcs None (Some bbox) emptyWorld).

Definition preprocess_log (config : Config) (env : Env) (exposure : Exposure)
           (wcs : Wcs) (bbox : Box2I) : list (Level * Msg) :=
  w_log (fst (preprocessExposure config env exposure wcs None (Some bbox) emptyWorld)).

(** An exposure of the list is skipped when its calexp is not in the
    repository, or when it was loaded and preprocessing it raised. *)
Definition skipped (config : Config) (env : Env) (wcs : Wcs) (bbox : Box2I)
           (calExpRef : DataRef) : bool :=
  negb (calexpExists calExpRef) ||
  match getCalExp calExpRef (doPsfMatch config) with
  | Ok exposure => negb (is_ok (preprocess_result config env exposure wcs bbox))
  | Raise _ => false
  end.

(** The result of lines 256-261: the exposure handed to the warper. *)
Definition psfMatch_stage (config : Config) (env : Env) (exposure : Exposure)
           (wcs : Wcs) : result Exposure :=
  match desiredFwhm config with
  | Some fwhm =>
      rbind (pydiv fwhm (pixelScaleArcsec wcs)) (fun fwhmPixels =>
      rbind (getPsfKernel exposure) (fun psf =>
      rbind (createPsf "DoubleGaussian" (psf_width psf) (psf_height psf)
                       (fwhmPixels / FWHMPerSigma) (fwhmPixels / FWHMPerSigma * 2.5) 0.1)
            (fun modelPsf => env_psfMatch env exposure modelPsf)))
  | None => Ok exposure
  end.

(** A dataset is a rescaled exposure when it is what the zero point scaler
    of the task made of an exposure that came out of the warper. *)
Definition rescaled (config : Config) (env : Env) (d : Dataset) : Prop :=
  exists x warped,
    d = DsExposure x /\
    env_scaleExposure env (coaddZeroPoint config) warped = Ok x /\
    exists wcs src maxBBox destBBox,
      env_warpExposure env wcs src maxBBox destBBox = Ok warped.

End MakeCoaddTempExp.

(** * coadd.py *)

Module Coadd.

(** The global names of the module. *)
Definition module_globals : Globals :=
  [ ("__name__", PyBuiltin "__name__"); ("__doc__", PyBuiltin "__doc__");
    ("__file__", PyBuiltin "__file__"); ("__package__", PyBuiltin "__package__");
    ("__builtins__", PyModule "__builtin__");
    ("math", PyModule "math");
    ("os", PyModule "os");
    ("sys", PyModule "sys");
    ("afwDetection", PyModule "lsst.afw.detection");
    ("afwGeom", PyModule "lsst.afw.geom");
    ("afwMath", PyModule "lsst.afw.math");
    ("coaddUtils", PyModule "lsst.coadd.utils");
    ("ipDiffIm", PyModule "lsst.ip.diffim");
    ("pipeBase", PyModule "lsst.pipe.base");
    ("FWHMPerSigma", PyFloat FWHMPerSigma);
    ("CoaddTask", PyClass "CoaddTask") ].

(** The attributes the class statement of [CoaddTask] defines. *)
Definition class_attrs : list string := [ "__module__"; "__doc__"; "__init__"; "run" ].

Definition Policy : Type := string.

(** What [__init__] would store on the instance. *)
Record TaskObj : Type := mkTaskObj {
  task_matchExposure : Exposure -> Psf -> result Exposure;
  task_warpExposure : Wcs -> Exposure -> option Box2I -> result Exposure
}.

(** The accumulator of lsst.coadd.utils, as the exposures added so far. *)
Record CoaddAcc : Type := mkCoaddAcc {
  acc_bbox : Box2I;
  acc_wcs : Wcs;
  acc_exposures : list Exposure
}.

Record Butler : Type := mkButler {
  butler_get_calexp : DataId -> result Exposure;
  butler_get_psf : DataId -> result Psf
}.

Record Struct : Type := mkStruct { coadd : CoaddAcc }.

(** The collaborators of the task.  [env_base_attrs] lists the attributes
    that [pipeBase.Task] and its bases define; [env_getattr_hook] is what a
    [__getattr__] among them would answer. *)
Record Env : Type := mkEnv {
  env_base_attrs : list string;
  env_getattr_hook : string -> result PyObj;
  env_Task_init : result Globals;
  env_ModelPsfMatch : Policy -> result (Exposure -> Psf -> result Exposure);
  env_Warper_fromPolicy : Policy -> result (Wcs -> Exposure -> option Box2I -> result Exposure);
  env_Coadd_fromPolicy : Box2I -> Wcs -> Policy -> result CoaddAcc;
  env_addExposure : CoaddAcc -> Exposure -> result CoaddAcc
}.

(** [self.<name>]: the dictionary of the instance, then the classes, then
    the [__getattr__] hook when a class defines one. *)
Definition instance_getattr (env : Env) (inst : Globals) (name : string) : result PyObj :=
  match assoc inst name with
  | Some o => Ok o
  | None =>
      let class_names := (class_attrs ++ env_base_attrs env)%list in
      if existsb (String.eqb name) class_names then Ok (PyBuiltin name)
      else if existsb (String.eqb "__getattr__") class_names then env_getattr_hook env name
      else Raise (AttributeError name)
  end.

(** [obj.Task.__init__(self, *args, **kwargs)]: only the module
    lsst.pipe.base has a [Task]; its constructor fills the instance. *)
Definition obj_Task_init (env : Env) (o : PyObj) : result Globals :=
  match o with
  | PyModule "lsst.pipe.base" => env_Task_init env
  | _ => Raise (AttributeError "Task")
  end.

(** [policy.<name>] on an object bound to a name of the module or of the instance. *)
Definition obj_policy (o : PyObj) (name : string) : result Policy :=
  match o with
  | PyPolicy entries =>
      match assoc entries name with
      | Some p => Ok p
      | None => Raise (LookupFailure name)
      end
  | _ => Raise (AttributeError name)
  end.

(** [CoaddTask.__init__]; the instance has no attribute of its own yet. *)
Definition init (env : Env) : result TaskObj :=
  rbind (instance_getattr env [] "pipeBase") (fun pb =>
  rbind (obj_Task_init env pb) (fun inst =>
  rbind (instance_getattr env inst "policy") (fun policy =>
  rbind (obj_policy policy "psfMatch") (fun pm =>
  rbind (env_ModelPsfMatch env pm) (fun psfMatcher =>
  rbind (instance_getattr env inst "policy") (fun policy =>
  rbind (obj_policy policy "warp") (fun pw =>
  rbind (env_Warper_fromPolicy env pw) (fun warper =>
  Ok (mkTaskObj psfMatcher warper))))))))).

(** [self.log], [self.psfMatcher], [self.warper] in [run], where [self] is
    a global name: no object of the module is a task. *)
Definition as_task (o : PyObj) (attr : string) : result TaskObj :=
  Raise (AttributeError attr).

(** [pexLog.INFO] *)
Definition obj_INFO (o : PyObj) : result Level := Raise (AttributeError "INFO").

(** [self.log.log(pexLog.INFO, msg)] *)
Definition log_info (msg : Msg) : M unit :=
  self <- lift (lookup_name module_globals "self") ;;
  _ <- lift (as_task self "log") ;;
  pexLog <- lift (lookup_name module_globals "pexLog") ;;
  lvl <- lift (obj_INFO pexLog) ;;
  log lvl msg.

Definition dim_eqb (a b : Z * Z) : bool := Z.eqb (fst a) (fst b) && Z.eqb (snd a) (snd b).

(** The loop of [run] (lines 78-99).  [modelPsf] is [None] while the local
    variable is unbound. *)
Fixpoint run_loop (env : Env) (butler : Butler) (coaddBBox : Box2I) (coaddWcs : Wcs)
         (desFwhm : R) (numExp : nat) (ind : nat) (idList : list DataId)
         (prevKernelDim : Z * Z) (modelPsf : option Psf) (coadd : CoaddAcc)
         {struct idList} : M CoaddAcc :=
  match idList with
  | [] => ret coadd
  | id :: rest =>
      log_info (MsgProcessing (ind + 1) numExp id) ;;
      exposure <- lift (butler_get_calexp butler id) ;;
      psf <- lift (butler_get_psf butler id) ;;
      let exposure := setPsf exposure psf in
      st <-
        (if Rltb 0 desFwhm then
           let kernelDim := kernelDimensions psf in
           pm <-
             (if negb (dim_eqb kernelDim prevKernelDim) then
                log_info (MsgCreateModel desFwhm (fst kernelDim) (snd kernelDim)) ;;
                let coreSigma := (desFwhm / FWHMPerSigma)%R in
                modelPsf <- lift (createPsf "DoubleGaussian" (fst kernelDim) (snd kernelDim)
                                            coreSigma (coreSigma * 2.5)%R 0.1%R) ;;
                ret (kernelDim, Some modelPsf)
              else ret (prevKernelDim, modelPsf)) ;;
           log_info MsgPsfMatch ;;
           self <- lift (lookup_name module_globals "self") ;;
           task <- lift (as_task self "psfMatcher") ;;
           model <- match snd pm with
                    | Some m => ret m
                    | None => raise (UnboundLocalError "modelPsf")
                    end ;;
           exposure <- lift (task_matchExposure task exposure model) ;;
           ret (pm, exposure)
         else ret ((prevKernelDim, modelPsf), exposure)) ;;
      log_info MsgWarp ;;
      self <- lift (lookup_name module_globals "self") ;;
      task <- lift (as_task self "warper") ;;
      exposure <- lift (task_warpExposure task coaddWcs (snd st) (Some coaddBBox)) ;;
      coadd <- lift (env_addExposure env coadd exposure) ;;
      run_loop env butler coaddBBox coaddWcs desFwhm numExp (S ind) rest
               (fst (fst st)) (snd (fst st)) coadd
  end.

(** Lines 76-103 of [run]: the accumulator, the loop and the result. *)
Definition run_tail (env : Env) (butler : Butler) (idList : list DataId)
           (coaddBBox : Box2I) (coaddWcs : Wcs) (desFwhm : R) (numExp : nat) : M Struct :=
  policy <- lift (lookup_name module_globals "policy") ;;
  pc <- lift (obj_policy policy "coadd") ;;
  coadd <- lift (env_Coadd_fromPolicy env coaddBBox coaddWcs pc) ;;
  let prevKernelDim := (0, 0) in
  coadd <- run_loop env butler coaddBBox coaddWcs desFwhm numExp 0 idList
                    prevKernelDim None coadd ;;
  ret (mkStruct coadd).

(** [CoaddTask.run]; its parameters are all there is: there is no [self]. *)
Definition run (env : Env) (butler : Butler) (idList : list DataId)
           (coaddBBox : Box2I) (coaddWcs : Wcs) (desFwhm : R) : M Struct :=
  let numExp := List.length idList in
  if (numExp <? 1)%nat then raise (RuntimeError "No exposures to coadd!")
  else
    log_info (MsgCoaddCalexp numExp) ;;
    (if Rleb desFwhm 0 then log_info MsgNoPsfMatchingLe0 else ret tt) ;;
    run_tail env butler idList coaddBBox coaddWcs desFwhm numExp.

End Coadd.


(** * Notions used to state the properties *)

(** The world [w] with the records [l] appended to its log. *)
Definition add_log (w : World) (l : list (Level * Msg)) : World :=
  mkWorld (w_log w ++ l) (w_store w).

(** What a computation leaves apart from the log: the contents of the
    repository and the value returned or the exception raised. *)
Definition outcome {A} (x : World * result A) : list StoreEntry * result A :=
  (w_store (fst x), snd x).

(** A computation that only logs: its records and its result do not
    depend on the world it starts in, and the repository is left alone. *)
Definition logs_only {A} (m : M A) : Prop :=
  exists l r, forall w, m w = (add_log w l, r).

(** A computation that never takes a record off the log. *)
Definition appends_log {A} (m : M A) : Prop :=
  forall w, exists l, w_log (fst (m w)) = (w_log w ++ l)%list.

(** * Concrete collaborators and inputs *)

(** Modelled from the spec: [coaddUtils.ZeroPointScaler] belongs to
    lsst.coadd.utils and is not part of the repository.  The specification
    says of the rescale step: "multiply pixel values and variance (variance
    scales by the square of the value factor) so that all contributing
    exposures share a common photometric zero point", and "absence of
    calibration metadata is a hard failure for that exposure".  The factor
    is the flux of a source of magnitude [zeroPoint] divided by the flux of
    a source of magnitude zero in the exposure. *)
Definition zeroPointFactor (zeroPoint : R) (e : Exposure) : R :=
  (Rpower 10 (0.4 * zeroPoint) / exp_fluxMag0 e)%R.

(** Modelled from the spec: [ZeroPointScaler.scaleExposure], which is
    missing with its class; without calibration it fails, otherwise values
    are multiplied by the factor and variances by its square. *)
Definition zeroPointScale (zeroPoint : R) (e : Exposure) : result Exposure :=
  if Rleb (exp_fluxMag0 e) 0 then Raise CalibrationMissing
  else
    let c := zeroPointFactor zeroPoint e in
    Ok (mkExposure (map (Rmult c) (exp_image e)) (exp_mask e)
                   (map (Rmult (c * c)) (exp_variance e))
                   (exp_bbox e) (exp_wcs e) (exp_psf e) (exp_fluxMag0 e)).

Definition ex_wcs : Wcs := mkWcs 1 (1 / 5).

Definition ex_bbox : Box2I := mkBox2I 0 0 3 3.

Definition ex_psf : Psf := mkPsf "pca" 5 5 2 2 0.

Definition ex_exposure : Exposure :=
  mkExposure [10; 10]%R [0; 0] [4; 1]%R (mkBox2I 0 0 1 0) (mkWcs 2 (1 / 4)) None 100.

(** A warper that registers the planes to the destination without
    changing them, and a matcher that installs the model. *)
Definition ex_warp (wcs : Wcs) (e : Exposure) (maxBBox destBBox : option Box2I)
  : result Exposure :=
  Ok (mkExposure (exp_image e) (exp_mask e) (exp_variance e)
                 (match destBBox with Some b => b | None => exp_bbox e end)
                 wcs (exp_psf e) (exp_fluxMag0 e)).

Definition ex_psfMatch (e : Exposure) (model : Psf) : result Exposure :=
  Ok (setPsf e model).

Definition ex_env (selected : list MakeCoaddTempExp.DataRef) : MakeCoaddTempExp.Env :=
  MakeCoaddTempExp.mkEnv
    (fun _ => Ok (MakeCoaddTempExp.mkSkyInfo ex_wcs ex_bbox))
    (fun _ p => mkCoord (pt_x p) (pt_y p))
    (fun _ _ => Ok selected)
    ex_psfMatch
    ex_warp
    zeroPointScale
    (fun _ _ _ => Ok tt).

Definition ex_patchRef : MakeCoaddTempExp.PatchRef :=
  MakeCoaddTempExp.mkPatchRef [("tract", "0"); ("patch", "1,2"); ("filter", "r")].

(** An exposure that is in the repository with its PSF. *)
Definition ex_good : MakeCoaddTempExp.DataRef :=
  MakeCoaddTempExp.mkDataRef [("visit", "1"); ("ccd", "7")] true
                             (Ok ex_exposure) (Ok ex_psf).

(** An exposure whose calexp is not in the repository. *)
Definition ex_missing : MakeCoaddTempExp.DataRef :=
  MakeCoaddTempExp.mkDataRef [("visit", "2"); ("ccd", "7")] false
                             (Raise LoadFailure) (Raise LoadFailure).

(** An exposure whose calexp is in the repository and whose PSF cannot be loaded. *)
Definition ex_nopsf : MakeCoaddTempExp.DataRef :=
  MakeCoaddTempExp.mkDataRef [("visit", "3"); ("ccd", "7")] true
                             (Ok ex_exposure) (Raise LoadFailure).

Definition cfg_nomatch : MakeCoaddTempExp.Config :=
  MakeCoaddTempExp.mkConfig "deep" None 27 true.

Definition cfg_match : MakeCoaddTempExp.Config :=
  MakeCoaddTempExp.mkConfig "deep" (Some 1%R) 27 false.

Definition cfg_zero : MakeCoaddTempExp.Config :=
  MakeCoaddTempExp.mkConfig "deep" (Some 0%R) 27 true.

(** The attributes of [lsst.pipe.base.Task], and what its constructor
    stores on the instance. *)
Definition ex_coadd_env : Coadd.Env :=
  Coadd.mkEnv
    [ "__init__"; "getFullMetadata"; "getFullName"; "getName"; "getTaskDict";
      "makeSubtask"; "timer"; "_computeFullName" ]
    (fun name => Raise (AttributeError name))
    (Ok [ ("metadata", PyBuiltin "metadata"); ("config", PyBuiltin "config");
          ("log", PyBuiltin "log"); ("_name", PyBuiltin "_name") ])
    (fun _ => Ok ex_psfMatch)
    (fun _ => Ok (fun wcs e maxBBox => ex_warp wcs e maxBBox None))
    (fun b w _ => Ok (Coadd.mkCoaddAcc b w []))
    (fun c e => Ok (Coadd.mkCoaddAcc (Coadd.acc_bbox c) (Coadd.acc_wcs c)
                                     (Coadd.acc_exposures c ++ [e]))).

Definition ex_butler : Coadd.Butler :=
  Coadd.mkButler (fun _ => Ok ex_exposure) (fun _ => Ok ex_psf).

(** A schema after deblending, a schema without deblend information, and
    a table of three sources: a leaf, a parent of two, and a source whose
    centroid is unknown. *)
Definition ex_schema_deblend : ProcessCoadd.Schema :=
  [ "id"; "coord"; "parent"; "deblend_nChild";
    "detect_isPatchInner"; "detect_isTractInner"; "detect_isPrimary" ].

Definition ex_schema_plain : ProcessCoadd.Schema :=
  [ "id"; "coord"; "parent";
    "detect_isPatchInner"; "detect_isTractInner"; "detect_isPrimary" ].

Definition ex_pc_config : ProcessCoadd.Config := ProcessCoadd.mkConfig "deep" true.

Definition ex_skyInfo : ProcessCoadd.SkyInfo :=
  ProcessCoadd.mkSkyInfo (mkBox2I 0 0 99 99) 7
                         (fun c => if Rltb (ra c) 180 then 7 else 8).

Definition ex_leaf : ProcessCoadd.Source :=
  ProcessCoadd.mkSource false (mkPoint2D 10 10) (mkCoord 10 0) 0 false false false.

Definition ex_parent : ProcessCoadd.Source :=
  ProcessCoadd.mkSource false (mkPoint2D 20 20) (mkCoord 20 0) 2 false false false.

Definition ex_flagged : ProcessCoadd.Source :=
  ProcessCoadd.mkSource true (mkPoint2D 0 0) (mkCoord 0 0) 0 false false false.

Definition ex_sources : list ProcessCoadd.Source := [ex_leaf; ex_parent; ex_flagged].

Definition ex_classified : list ProcessCoadd.Source :=
  map (ProcessCoadd.classify (ProcessCoadd.find_nChildKey ex_schema_deblend)
                             (Box2D_of_Box2I (ProcessCoadd.patchInnerBBox ex_skyInfo))
                             ex_skyInfo)
      ex_sources.

(** * Further notions for makeCoaddTempExp.py *)

Module MakeCoaddTempExpNotions.

Import MakeCoaddTempExp.

(** The reference under which an entry of the repository was written. *)
Definition entry_ref (entry : StoreEntry) : OutRef :=
  mkOutRef (se_datasetType entry) (se_dataId entry).

(** Lines 146-151: the reference of the temporary exposure made from
    [calExpRef] for the patch. *)
Definition tempExpRef_of (config : Config) (patchRef : PatchRef) (calExpRef : DataRef)
  : OutRef :=
  mkOutRef (coaddName config ++ "Coadd_tempExp")
           (dict_update (dataId calExpRef) (patch_dataId patchRef)).

End MakeCoaddTempExpNotions.

(** Collaborators that always succeed: the scaler leaves the planes as
    they are. *)
Definition ex_env_plain (selected : list MakeCoaddTempExp.DataRef) : MakeCoaddTempExp.Env :=
  MakeCoaddTempExp.mkEnv
    (fun _ => Ok (MakeCoaddTempExp.mkSkyInfo ex_wcs ex_bbox))
    (fun _ p => mkCoord (pt_x p) (pt_y p))
    (fun _ _ => Ok selected)
    ex_psfMatch
    ex_warp
    (fun _ e => Ok e)
    (fun _ _ _ => Ok tt).

Definition cfg_nowrite : MakeCoaddTempExp.Config :=
  MakeCoaddTempExp.mkConfig "deep" None 27 false.

Definition cfg_persist : MakeCoaddTempExp.Config :=
  MakeCoaddTempExp.mkConfig "deep" (Some 1%R) 27 true.

(** * Computations of the other tasks *)

(** A computation that leaves a trace of events of type [E] and returns a
    value or raises an exception of type [X]; what was traced before an
    exception stays in the trace. *)
Definition Eff (X E A : Type) : Type := list E -> list E * (X + A).

Definition eret {X E A} (a : A) : Eff X E A := fun t => (t, inr a).

Definition eraise {X E A} (x : X) : Eff X E A := fun t => (t, inl x).

Definition ebind {X E A B} (m : Eff X E A) (k : A -> Eff X E B) : Eff X E B :=
  fun t =>
    match m t with
    | (t', inr a) => k a t'
    | (t', inl x) => (t', inl x)
    end.

Definition emit {X E} (e : E) : Eff X E unit := fun t => ((t ++ [e])%list, inr tt).

(** A call of a collaborator, whose exceptions are injected by [inj]. *)
Definition ecall {X E A} (inj : Exn -> X) (r : result A) : Eff X E A :=
  fun t => (t, match r with Ok a => inr a | Raise e => inl (inj e) end).

Declare Scope eff_scope.
Delimit Scope eff_scope with eff.
Notation "x <-- m ;; k" := (ebind m (fun x => k))
  (at level 100, m at next level, right associativity) : eff_scope.
Notation "m ;;; k" := (ebind m (fun _ => k))
  (at level 100, right associativity) : eff_scope.

(** * measurePsf.py *)

Module MeasurePsf.

Open Scope eff_scope.

(** A source of the old source list: its id and the detection flags, a
    Python integer used as a set of bits. *)
Record Source : Type := mkSource { src_id : Z; flagForDetection : Z }.

Definition setFlagForDetection (s : Source) (flags : Z) : Source :=
  mkSource (src_id s) flags.

(** The truth value of a Python integer. *)
Definition truthy (z : Z) : bool := negb (z =? 0).

(** [propagateFlag(flag, old, new)]; the value returned is [new] after the call. *)
Definition propagateFlag (flag : Z) (old new : Source) : Source :=
  if truthy (Z.land (flagForDetection old) flag) then
    setFlagForDetection new (Z.lor (flagForDetection new) flag)
  else new.

Inductive Exc : Type :=
  | AssertionError (msg : string)
  | IndexError
  | Builtin (e : Exn).

Inductive Event : Type :=
  | EvMeasuringPsf
  | EvPsfDetermination (numGoodStars numAvailStars : Z).

(** A PSF candidate holds a copy of its source. *)
Record Candidate : Type := mkCandidate { cand_source : Source }.

Definition Metadata : Type := list (string * Z).

Definition CellSet : Type := list (list Candidate).

Definition StarSelector : Type := Exposure -> list Source -> result (list Candidate).

Definition PsfDeterminer : Type :=
  Exposure -> list Candidate -> Metadata -> result (Psf * CellSet * Metadata).

Record Struct : Type := mkStruct { psf : Psf; cellSet : CellSet }.

(** The task as [run] sees it, and the collaborators of lsst.meas.algorithms. *)
Record Env : Type := mkEnv {
  env_policy : string -> result string;       (* [self.policy.<name>] *)
  env_metadata : Metadata;                     (* [self.metadata] *)
  env_makeStarSelector : string -> string -> result StarSelector;
  env_makePsfDeterminer : string -> string -> result PsfDeterminer;
  env_cast_PsfCandidateF : Candidate -> result Candidate;
  env_PSFSTAR : Z                              (* [measAlg.Flags.PSFSTAR] *)
}.

(** The global names of the module. *)
Definition module_globals : Globals :=
  [ ("__name__", PyBuiltin "__name__"); ("__doc__", PyBuiltin "__doc__");
    ("__file__", PyBuiltin "__file__"); ("__package__", PyBuiltin "__package__");
    ("__builtins__", PyModule "__builtin__");
    ("afwDet", PyModule "lsst.afw.detection");
    ("measAlg", PyModule "lsst.meas.algorithms");
    ("pipDist", PyModule "lsst.pipette.distortion");
    ("pipeBase", PyModule "lsst.pipe.base");
    ("propagateFlag", PyBuiltin "propagateFlag");
    ("MeasurePsfTask", PyClass "MeasurePsfTask") ].

(** [obj[key].getValue()] on an object bound to a global name: modules,
    classes and functions cannot be subscripted. *)
Definition obj_getitem_value (o : PyObj) (key : string) : result Z :=
  Raise (TypeError "__getitem__").

(** [self.metadata[key].getValue()] *)
Definition metadata_value (m : Metadata) (key : string) : result Z :=
  match assoc m key with
  | Some v => Ok v
  | None => Raise (LookupFailure key)
  end.

(** [sources[ident]] on a Python list: a negative index counts from the end. *)
Definition list_index (sources : list Source) (ident : Z) : Exc + Source :=
  let n := Z.of_nat (List.length sources) in
  let i := if ident <? 0 then ident + n else ident in
  if (i <? 0) || (n <=? i) then inl IndexError
  else match nth_error sources (Z.to_nat i) with
       | Some s => inr s
       | None => inl IndexError
       end.

Fixpoint list_set (sources : list Source) (i : nat) (s : Source) : list Source :=
  match sources, i with
  | [], _ => []
  | _ :: rest, O => s :: rest
  | x :: rest, S j => x :: list_set rest j s
  end.

(** Lines 86-93 for one candidate: the flag goes to the source of the list
    found at position [ident]. *)
Definition markCandidate (env : Env) (cand : Candidate) (sources : list Source)
  : Exc + list Source :=
  match env_cast_PsfCandidateF env cand with
  | Raise e => inl (Builtin e)
  | Ok cand =>
      let src := cand_source cand in
      if truthy (Z.land (flagForDetection src) (env_PSFSTAR env)) then
        let ident := src_id src in
        match list_index sources ident with
        | inl x => inl x
        | inr src =>
            if negb (src_id src =? ident) then inl (AssertionError "")
            else
              let n := Z.of_nat (List.length sources) in
              let i := if ident <? 0 then ident + n else ident in
              inr (list_set sources (Z.to_nat i)
                     (setFlagForDetection src
                        (Z.lor (flagForDetection src) (env_PSFSTAR env))))
        end
      else inr sources
  end.

Fixpoint markCandidates (env : Env) (cands : list Candidate) (sources : list Source)
  : Exc + list Source :=
  match cands with
  | [] => inr sources
  | cand :: rest =>
      match markCandidate env cand sources with
      | inl x => inl x
      | inr sources => markCandidates env rest sources
      end
  end.

(** [MeasurePsfTask.run]; [None] stands for an exposure that is not there.
    The block under [if False:] is never run.  The value is the result
    together with the exposure and the sources as the call leaves them. *)
Definition run (env : Env) (exposure : option Exposure) (sources : list Source)
  : Eff Exc Event (Struct * Exposure * list Source) :=
  match exposure with
  | None => eraise (AssertionError "No exposure provided")
  | Some exposure =>
      if (List.length sources =? 0)%nat then eraise (AssertionError "No sources provided")
      else
        selName <-- ecall Builtin (env_policy env "selectName") ;;
        selPolicy <-- ecall Builtin (env_policy env "select") ;;
        algName <-- ecall Builtin (env_policy env "algorithmName") ;;
        algPolicy <-- ecall Builtin (env_policy env "algorithm") ;;
        emit EvMeasuringPsf ;;;
        starSelector <-- ecall Builtin (env_makeStarSelector env selName selPolicy) ;;
        psfCandidateList <-- ecall Builtin (starSelector exposure sources) ;;
        psfDeterminer <-- ecall Builtin (env_makePsfDeterminer env algName algPolicy) ;;
        det <-- ecall Builtin (psfDeterminer exposure psfCandidateList (env_metadata env)) ;;
        let psf := fst (fst det) in
        let cellSet := snd (fst det) in
        let metadata := snd det in
        numGood <-- ecall Builtin (metadata_value metadata "numGoodStars") ;;
        sdqaRatings <-- ecall Builtin (lookup_name module_globals "sdqaRatings") ;;
        numAvail <-- ecall Builtin (obj_getitem_value sdqaRatings "numAvailStars") ;;
        emit (EvPsfDetermination numGood numAvail) ;;;
        sources <-- (fun t => (t, markCandidates env psfCandidateList sources)) ;;
        let exposure := setPsf exposure psf in
        eret (mkStruct psf cellSet, exposure, sources)
  end.

End MeasurePsf.

(** * makeCoaddTempExp.py: CoaddArgumentParser *)

Module CoaddArgumentParser.

Import MakeCoaddTempExp.

(** What [_makeDataRefList] reads of the namespace: the name of the coadd
    of its configuration, the data ids of the command line, and the
    butler's [getKeys]. *)
Record Namespace : Type := mkNamespace {
  ns_coaddName : string;
  ns_dataIdList : list DataId;
  ns_getKeys : string -> string -> result (list string)
}.

(** [self.error(message)] of argparse prints the message and leaves the
    program; otherwise the list of data references is stored. *)
Inductive Outcome : Type :=
  | ParserError (message : string)
  | DataRefList (refs : list OutRef).

(** [key in dataId] *)
Definition has_key (dataId : DataId) (key : string) : bool :=
  match assoc dataId key with Some _ => true | None => false end.

(** The inner loop: the first valid key that the data id lacks. *)
Fixpoint first_missing (validKeys : list string) (dataId : DataId) : option string :=
  match validKeys with
  | [] => None
  | key :: rest => if has_key dataId key then first_missing rest dataId else Some key
  end.

(** The loop over the data ids, with the list of references so far. *)
Fixpoint makeRefs (datasetType : string) (validKeys : list string)
         (dataIdList : list DataId) (dataRefList : list OutRef) : Outcome :=
  match dataIdList with
  | [] => DataRefList dataRefList
  | dataId :: rest =>
      match first_missing validKeys dataId with
      | Some key => ParserError ("--id must include " ++ key)
      | None =>
          let dataRef := mkOutRef datasetType dataId in
          makeRefs datasetType validKeys rest (dataRefList ++ [dataRef])%list
      end
  end.

Definition _makeDataRefList (dataRefLevel : string) (namespace : Namespace)
  : result Outcome :=
  let datasetType := ns_coaddName namespace ++ "Coadd" in
  rbind (ns_getKeys namespace datasetType dataRefLevel) (fun validKeys =>
  Ok (makeRefs datasetType validKeys (ns_dataIdList namespace) [])).

End CoaddArgumentParser.

(** * processCoadd.py: ProcessCoaddTask.run *)

Module ProcessCoaddRun.

Import ProcessCoadd.

Open Scope eff_scope.

(** The fields of the configuration that [run] reads beside those of
    [setIsPrimaryFlag]. *)
Record RunConfig : Type := mkRunConfig {
  rc_config : Config;
  doScaleVariance : bool;
  mask : list string;
  doWriteSources : bool
}.

Inductive Event : Type :=
  | EvProcessing (dataId : DataId)
  | EvPut (sources : list Source) (datasetType : string).

(** The result of [ProcessImageTask.process], with the field [run] adds. *)
Record Result : Type := mkResult {
  res_exposure : Exposure;
  res_sources : option (list Source);
  res_coadd : Exposure
}.

(** The collaborators: [getSkyInfo] and [scaleVariance] of coaddBase, the
    repository, [ProcessImageTask.process] (which gives the coadd as the
    call leaves it, the exposure of its result and the sources it found,
    if any), the subtask that propagates flags, and [dataRef.put]. *)
Record Env : Type := mkEnv {
  env_getSkyInfo : string -> DataId -> result SkyInfo;
  env_get : string -> result Exposure;
  env_scaleVariance : Exposure -> list string -> result Exposure;
  env_process : DataId -> Exposure -> result (Exposure * Exposure * option (list Source));
  env_propagateFlags : list Source -> Exposure -> result (list Source);
  env_put : list Source -> string -> result unit
}.

Definition put (env : Env) (sources : list Source) (datasetType : string)
  : Eff Exn Event unit :=
  ecall (fun e => e) (env_put env sources datasetType) ;;;
  emit (EvPut sources datasetType).

(** [ProcessCoaddTask.run]; [schema] is [self.schema]. *)
Definition run (config : RunConfig) (schema : Schema) (env : Env) (dataId : DataId)
  : Eff Exn Event Result :=
  let coaddName := coaddName (rc_config config) in
  let dataPrefix := coaddName ++ "Coadd_" in
  emit (EvProcessing dataId) ;;;
  skyInfo <-- ecall (fun e => e) (env_getSkyInfo env coaddName dataId) ;;
  coadd <-- ecall (fun e => e) (env_get env (coaddName ++ "Coadd")) ;;
  coadd <-- (if doScaleVariance config
             then ecall (fun e => e) (env_scaleVariance env coadd (mask config))
             else eret coadd) ;;
  processed <-- ecall (fun e => e) (env_process env dataId coadd) ;;
  let coadd := fst (fst processed) in
  let exposure := snd (fst processed) in
  match snd processed with
  | Some sources =>
      sources <-- ecall (fun e => e)
                        (setIsPrimaryFlag (rc_config config) schema sources skyInfo) ;;
      sources <-- ecall (fun e => e) (env_propagateFlags env sources coadd) ;;
      (if doWriteSources config then put env sources (dataPrefix ++ "src")
       else eret tt) ;;;
      eret (mkResult exposure (Some sources) coadd)
  | None => eret (mkResult exposure None coadd)
  end.

End ProcessCoaddRun.

(** * Concrete inputs for the other tasks *)

Definition ex_namespace : CoaddArgumentParser.Namespace :=
  CoaddArgumentParser.mkNamespace
    "deep"
    [ [("tract", "0"); ("patch", "1,2"); ("filter", "r")];
      [("tract", "0"); ("patch", "1,3"); ("filter", "r")] ]
    (fun _ _ => Ok ["tract"; "patch"; "filter"]).

Definition ex_namespace_bad : CoaddArgumentParser.Namespace :=
  CoaddArgumentParser.mkNamespace
    "deep"
    [ [("tract", "0"); ("patch", "1,2"); ("filter", "r")];
      [("tract", "0"); ("filter", "r")] ]
    (fun _ _ => Ok ["tract"; "patch"; "filter"]).

Definition ex_run_config : ProcessCoaddRun.RunConfig :=
  ProcessCoaddRun.mkRunConfig ex_pc_config true
    ["DETECTED"; "BAD"; "SAT"; "NO_DATA"; "INTRP"] true.

Definition ex_run_env : ProcessCoaddRun.Env :=
  ProcessCoaddRun.mkEnv
    (fun _ _ => Ok ex_skyInfo)
    (fun _ => Ok ex_exposure)
    (fun e _ => Ok e)
    (fun _ e => Ok (e, e, Some ex_sources))
    (fun sources _ => Ok sources)
    (fun _ _ => Ok tt).


(** * Properties of processCoadd.py *)

Section SetIsPrimaryFlag.

Import ProcessCoadd.

Variable config : Config.
Variable schema : Schema.
Variable skyInfo : SkyInfo.

Lemma schema_find_from_absent (name : string) (fields : Schema) (i : nat) :
  ~ In name fields -> schema_find_from i fields name = Raise (LookupFailure name).
Proof.
  revert i. induction fields as [|f rest IH]; intros i Hnot; simpl.
  - reflexivity.
  - destruct (String.eqb_spec f name) as [Heq|Hne].
    + exfalso. apply Hnot. left. exact Heq.
    + apply IH. intros Hin. apply Hnot. right. exact Hin.
Qed.

Lemma schema_find_from_present (name : string) (fields : Schema) (i : nat) :
  In name fields -> exists k, schema_find_from i fields name = Ok k.
Proof.
  revert i. induction fields as [|f rest IH]; intros i Hin; simpl.
  - destruct Hin.
  - destruct (String.eqb_spec f name) as [Heq|Hne].
    + exists i. reflexivity.
    + destruct Hin as [Hf|Hin]; [contradiction|]. apply IH. exact Hin.
Qed.

Lemma find_nChildKey_absent :
  ~ In nChildKeyName schema -> find_nChildKey schema = None.
Proof.
  intros Hnot. unfold find_nChildKey, schema_find.
  rewrite (@schema_find_from_absent _ _ 0%nat Hnot). reflexivity.
Qed.

Lemma find_nChildKey_present :
  In nChildKeyName schema -> exists k, find_nChildKey schema = Some k.
Proof.
  intros Hin. unfold find_nChildKey, schema_find.
  destruct (@schema_find_from_present _ _ 0%nat Hin) as [k Hk].
  exists k. rewrite Hk. reflexivity.
Qed.

(** When the call returns, the table it leaves is the old one with the
    loop body applied to every record. *)
Lemma setIsPrimaryFlag_ok (sources sources' : list Source) :
  setIsPrimaryFlag config schema sources skyInfo = Ok sources' ->
  sources' = map (classify (find_nChildKey schema)
                           (Box2D_of_Box2I (patchInnerBBox skyInfo)) skyInfo) sources.
Proof.
  unfold setIsPrimaryFlag.
  destruct (doDeblend config && _); intros H; [discriminate|].
  injection H as H. symmetry. exact H.
Qed.

(** The call raises in one case only. *)
Lemma setIsPrimaryFlag_raises_iff (sources : list Source) :
  is_ok (setIsPrimaryFlag config schema sources skyInfo) = false <->
  doDeblend config = true /\ ~ In nChildKeyName schema.
Proof.
  unfold setIsPrimaryFlag. split.
  - destruct (doDeblend config) eqn:Hd; simpl.
    + destruct (find_nChildKey schema) eqn:Hk; simpl; [discriminate|].
      intros _. split; [reflexivity|]. intros Hin.
      destruct (find_nChildKey_present Hin) as [k Hk']. congruence.
    + discriminate.
  - intros [Hd Hnot]. rewrite Hd, (find_nChildKey_absent Hnot). reflexivity.
Qed.

(** C7: when the configuration says that the deblender ran and the schema
    has no field [deblend_nChild], [setIsPrimaryFlag] raises the
    [RuntimeError] of line 169, whatever the table and the sky map are; it
    does not go on as if there were no deblend information. *)
Theorem setIsPrimaryFlag_schema_inconsistency (sources : list Source) :
  doDeblend config = true ->
  ~ In nChildKeyName schema ->
  setIsPrimaryFlag config schema sources skyInfo =
  Raise (RuntimeError "Ran the deblender but cannot find 'deblend_nChild' in the source table").
Proof.
  intros Hd Hnot. unfold setIsPrimaryFlag.
  rewrite Hd, (find_nChildKey_absent Hnot). reflexivity.
Qed.

(** C9: a source whose centroid flag is set is left as it was: the record
    after the call is the record before it, so no classification step was
    done for it, and its three flags, false when the record entered, are
    false when the call returns. *)
Theorem setIsPrimaryFlag_centroid_unknown
        (sources sources' : list Source) (i : nat) (s : Source) :
  setIsPrimaryFlag config schema sources skyInfo = Ok sources' ->
  nth_error sources i = Some s ->
  src_centroidFlag s = true ->
  detect_isPatchInner s = false ->
  detect_isTractInner s = false ->
  detect_isPrimary s = false ->
  exists s', nth_error sources' i = Some s' /\ s' = s /\
             detect_isPatchInner s' = false /\
             detect_isTractInner s' = false /\
             detect_isPrimary s' = false.
Proof.
  intros Hrun Hi Hflag Hp Ht Hpr.
  rewrite (setIsPrimaryFlag_ok _ Hrun).
  exists s. rewrite nth_error_map, Hi. simpl.
  unfold classify. rewrite Hflag. repeat split; assumption.
Qed.


End SetIsPrimaryFlag.

(** * Properties of the float tests and of the double Gaussian model *)

Section RealFacts.

Open Scope R_scope.

Lemma Rleb_true (x y : R) : x <= y -> Rleb x y = true.
Proof. intros H. unfold Rleb. destruct (Rle_dec x y); [reflexivity|contradiction]. Qed.

Lemma Rleb_false (x y : R) : y < x -> Rleb x y = false.
Proof. intros H. unfold Rleb. destruct (Rle_dec x y); [lra|reflexivity]. Qed.

Lemma Rltb_true (x y : R) : x < y -> Rltb x y = true.
Proof. intros H. unfold Rltb. destruct (Rlt_dec x y); [reflexivity|contradiction]. Qed.

Lemma Rltb_false (x y : R) : y <= x -> Rltb x y = false.
Proof. intros H. unfold Rltb. destruct (Rlt_dec x y); [lra|reflexivity]. Qed.

Lemma Reqb_false (x y : R) : x <> y -> Reqb x y = false.
Proof. intros H. unfold Reqb. destruct (Req_dec_T x y); [contradiction|reflexivity]. Qed.

Lemma pydiv_ok (x y : R) : y <> 0 -> pydiv x y = Ok (x / y).
Proof. intros H. unfold pydiv. rewrite (Reqb_false H). reflexivity. Qed.

Lemma ln_2_pos : 0 < ln 2.
Proof. pose proof ln_lt_2. lra. Qed.

Lemma FWHMPerSigma_pos : 0 < FWHMPerSigma.
Proof.
  unfold FWHMPerSigma.
  assert (0 < sqrt (2 * ln 2)) by (apply sqrt_lt_R0; pose proof ln_2_pos; lra).
  lra.
Qed.

Lemma FWHMPerSigma_sqr : FWHMPerSigma * FWHMPerSigma = 8 * ln 2.
Proof.
  unfold FWHMPerSigma.
  replace (2 * sqrt (2 * ln 2) * (2 * sqrt (2 * ln 2)))
    with (4 * (sqrt (2 * ln 2) * sqrt (2 * ln 2))) by ring.
  rewrite sqrt_sqrt by (pose proof ln_2_pos; lra). ring.
Qed.

(** The width of the core has the sign of the FWHM. *)
Lemma coreSigma_pos (fwhm : R) : 0 < fwhm -> 0 < fwhm / FWHMPerSigma.
Proof. intros H. apply Rdiv_lt_0_compat; [exact H|apply FWHMPerSigma_pos]. Qed.

Lemma coreSigma_nonpos (fwhm : R) : fwhm <= 0 -> fwhm / FWHMPerSigma <= 0.
Proof.
  intros H. unfold Rdiv.
  assert (0 < / FWHMPerSigma) by (apply Rinv_0_lt_compat, FWHMPerSigma_pos).
  nra.
Qed.

Lemma createPsf_ok (name : string) (width height : Z) (sigma1 sigma2 b : R) :
  (0 < width)%Z -> (0 < height)%Z -> 0 < sigma1 -> 0 < sigma2 ->
  createPsf name width height sigma1 sigma2 b = Ok (mkPsf name width height sigma1 sigma2 b).
Proof.
  intros Hw Hh H1 H2. unfold createPsf.
  destruct (Z.leb_spec width 0); [lia|]. destruct (Z.leb_spec height 0); [lia|].
  rewrite (Rleb_false H1), (Rleb_false H2). reflexivity.
Qed.

Lemma createPsf_invalid (name : string) (width height : Z) (sigma1 sigma2 b : R) :
  (width <= 0)%Z \/ (height <= 0)%Z \/ sigma1 <= 0 \/ sigma2 <= 0 ->
  createPsf name width height sigma1 sigma2 b = Raise InvalidParameter.
Proof.
  intros H. unfold createPsf.
  destruct (Z.leb_spec width 0); [reflexivity|].
  destruct (Z.leb_spec height 0); [reflexivity|]. simpl.
  destruct H as [H|[H|[H|H]]]; try lia.
  - rewrite (Rleb_true H). reflexivity.
  - rewrite (Rleb_true H), orb_true_r. reflexivity.
Qed.

(** What the builder asks of [createPsf], by the sign of its arguments. *)
Lemma modelPsf_ok (fwhmPixels : R) (width height : Z) :
  0 < fwhmPixels -> (0 < width)%Z -> (0 < height)%Z ->
  createPsf "DoubleGaussian" width height
            (fwhmPixels / FWHMPerSigma) (fwhmPixels / FWHMPerSigma * 2.5) 0.1
  = Ok (mkPsf "DoubleGaussian" width height
              (fwhmPixels / FWHMPerSigma) (fwhmPixels / FWHMPerSigma * 2.5) 0.1).
Proof.
  intros Hf Hw Hh. pose proof (coreSigma_pos Hf).
  apply createPsf_ok; [exact Hw|exact Hh|assumption|lra].
Qed.

Lemma modelPsf_invalid (fwhmPixels : R) (width height : Z) :
  fwhmPixels <= 0 \/ (width <= 0)%Z \/ (height <= 0)%Z ->
  createPsf "DoubleGaussian" width height
            (fwhmPixels / FWHMPerSigma) (fwhmPixels / FWHMPerSigma * 2.5) 0.1
  = Raise InvalidParameter.
Proof.
  intros H. apply createPsf_invalid.
  destruct H as [H|[H|H]]; [|left; exact H|right; left; exact H].
  right; right; left. apply coreSigma_nonpos. exact H.
Qed.

(** At half the FWHM from the centre, a Gaussian of width FWHM /
    FWHMPerSigma is at half its peak. *)
Lemma half_maximum (fwhm : R) :
  0 < fwhm ->
  exp (- (fwhm / 2 * (fwhm / 2)) / (2 * (fwhm / FWHMPerSigma * (fwhm / FWHMPerSigma))))
  = / 2.
Proof.
  intros Hf. pose proof FWHMPerSigma_pos as Hp. pose proof FWHMPerSigma_sqr as Hs.
  replace (- (fwhm / 2 * (fwhm / 2)) / (2 * (fwhm / FWHMPerSigma * (fwhm / FWHMPerSigma))))
    with (- ((FWHMPerSigma * FWHMPerSigma) / 8)) by (field; lra).
  rewrite Hs.
  replace (8 * ln 2 / 8) with (ln 2) by field.
  rewrite exp_Ropp, exp_ln by lra. reflexivity.
Qed.

(** The scaler of the specification multiplies the values by the factor
    and the variance by its square, and leaves the mask alone. *)
Lemma zeroPointScale_planes (zeroPoint : R) (e x : Exposure) :
  zeroPointScale zeroPoint e = Ok x ->
  exp_image x = map (Rmult (zeroPointFactor zeroPoint e)) (exp_image e) /\
  exp_variance x =
    map (Rmult (zeroPointFactor zeroPoint e * zeroPointFactor zeroPoint e)) (exp_variance e) /\
  exp_mask x = exp_mask e.
Proof.
  unfold zeroPointScale.
  destruct (Rleb (exp_fluxMag0 e) 0); [discriminate|].
  intros H. injection H as H. subst x. simpl. repeat split; reflexivity.
Qed.

Lemma zeroPointScale_no_calibration (zeroPoint : R) (e : Exposure) :
  exp_fluxMag0 e <= 0 -> zeroPointScale zeroPoint e = Raise CalibrationMissing.
Proof. intros H. unfold zeroPointScale. rewrite (Rleb_true H). reflexivity. Qed.

End RealFacts.

(** * Properties of the monad *)

Section MonadFacts.

Lemma add_log_nil (w : World) : add_log w [] = w.
Proof. destruct w as [l s]. unfold add_log. simpl. rewrite app_nil_r. reflexivity. Qed.

Lemma add_log_app (w : World) (l1 l2 : list (Level * Msg)) :
  add_log (add_log w l1) l2 = add_log w (l1 ++ l2).
Proof. unfold add_log. simpl. rewrite app_assoc. reflexivity. Qed.

Lemma w_store_add_log (w : World) (l : list (Level * Msg)) :
  w_store (add_log w l) = w_store w.
Proof. reflexivity. Qed.

Lemma logs_only_ret {A} (a : A) : logs_only (ret a).
Proof. exists [], (Ok a). intros w. rewrite add_log_nil. reflexivity. Qed.

Lemma logs_only_raise {A} (e : Exn) : logs_only (@raise A e).
Proof. exists [], (Raise e). intros w. rewrite add_log_nil. reflexivity. Qed.

Lemma logs_only_lift {A} (r : result A) : logs_only (lift r).
Proof. exists [], r. intros w. rewrite add_log_nil. reflexivity. Qed.

Lemma logs_only_log (lvl : Level) (msg : Msg) : logs_only (log lvl msg).
Proof. exists [(lvl, msg)], (Ok tt). intros w. reflexivity. Qed.

Lemma logs_only_bind {A B} (m : M A) (k : A -> M B) :
  logs_only m -> (forall a, logs_only (k a)) -> logs_only (bind m k).
Proof.
  intros [l [r Hm]] Hk. destruct r as [a|e].
  - destruct (Hk a) as [l' [r' Hka]].
    exists (l ++ l')%list, r'. intros w. unfold bind.
    rewrite Hm, Hka, add_log_app. reflexivity.
  - exists l, (Raise e). intros w. unfold bind. rewrite Hm. reflexivity.
Qed.

(** A computation that only logs is determined by its run in the empty world. *)
Lemma logs_only_run {A} (m : M A) (w : World) :
  logs_only m -> m w = (add_log w (w_log (fst (m emptyWorld))), snd (m emptyWorld)).
Proof.
  intros [l [r Hm]]. rewrite (Hm emptyWorld), (Hm w). reflexivity.
Qed.

Lemma appends_log_ret {A} (a : A) : appends_log (ret a).
Proof. intros w. exists []. simpl. rewrite app_nil_r. reflexivity. Qed.

Lemma appends_log_raise {A} (e : Exn) : appends_log (@raise A e).
Proof. intros w. exists []. simpl. rewrite app_nil_r. reflexivity. Qed.

Lemma appends_log_lift {A} (r : result A) : appends_log (lift r).
Proof. intros w. exists []. simpl. rewrite app_nil_r. reflexivity. Qed.

Lemma appends_log_log (lvl : Level) (msg : Msg) : appends_log (log lvl msg).
Proof. intros w. exists [(lvl, msg)]. reflexivity. Qed.

Lemma appends_log_store (datasetType : string) (id : DataId) (d : Dataset) :
  appends_log (store datasetType id d).
Proof. intros w. exists []. simpl. rewrite app_nil_r. reflexivity. Qed.

Lemma appends_log_bind {A B} (m : M A) (k : A -> M B) :
  appends_log m -> (forall a, appends_log (k a)) -> appends_log (bind m k).
Proof.
  intros Hm Hk w. unfold bind. destruct (Hm w) as [l Hl].
  destruct (m w) as [w1 [a|e]]; simpl in Hl.
  - destruct (Hk a w1) as [l' Hl']. exists (l ++ l')%list.
    rewrite Hl', Hl, app_assoc. reflexivity.
  - exists l. exact Hl.
Qed.

Lemma appends_log_try {A} (m : M A) : appends_log m -> appends_log (try m).
Proof.
  intros Hm w. unfold try. destruct (Hm w) as [l Hl].
  destruct (m w) as [w1 r]. exists l. exact Hl.
Qed.

Lemma logs_only_appends {A} (m : M A) : logs_only m -> appends_log m.
Proof. intros [l [r Hm]] w. exists l. rewrite Hm. reflexivity. Qed.

End MonadFacts.

(** * Properties of makeCoaddTempExp.py *)

Section MakeCoaddTempExpFacts.

Import MakeCoaddTempExp.

Variable config : Config.
Variable env : Env.

Lemma makeModelPsf_run (fwhmPixels : R) (kernelDim : Z * Z) (w : World) :
  makeModelPsf fwhmPixels kernelDim w =
  (add_log w [(DEBUG, MsgCreateModel fwhmPixels (fst kernelDim) (snd kernelDim))],
   createPsf "DoubleGaussian" (fst kernelDim) (snd kernelDim)
             (fwhmPixels / FWHMPerSigma) (fwhmPixels / FWHMPerSigma * 2.5) 0.1).
Proof. reflexivity. Qed.

Lemma makeModelPsf_logs_only (fwhmPixels : R) (kernelDim : Z * Z) :
  logs_only (makeModelPsf fwhmPixels kernelDim).
Proof.
  unfold makeModelPsf. apply logs_only_bind; [apply logs_only_log|].
  intros _. apply logs_only_lift.
Qed.

Lemma preprocessExposure_logs_only (exposure : Exposure) (wcs : Wcs)
      (maxBBox destBBox : option Box2I) :
  logs_only (preprocessExposure config env exposure wcs maxBBox destBBox).
Proof.
  unfold preprocessExposure.
  apply logs_only_bind.
  - destruct (desiredFwhm config) as [fwhm|]; [|apply logs_only_ret].
    repeat first [ apply logs_only_bind | apply logs_only_log | apply logs_only_lift
                 | apply makeModelPsf_logs_only | intro ].
  - intros e1.
    repeat first [ apply logs_only_bind | apply logs_only_log | apply logs_only_lift
                 | apply logs_only_ret | intro ].
Qed.

(** Preprocessing logs and does nothing else; its result is the same in every world. *)
Lemma preprocessExposure_run (exposure : Exposure) (wcs : Wcs) (bbox : Box2I) (w : World) :
  preprocessExposure config env exposure wcs None (Some bbox) w =
  (add_log w (preprocess_log config env exposure wcs bbox),
   preprocess_result config env exposure wcs bbox).
Proof.
  unfold preprocess_log, preprocess_result.
  apply logs_only_run, preprocessExposure_logs_only.
Qed.


(** Preprocessing is the PSF-match stage, the warper and the zero point
    scaler one after the other; each stage runs only if the one before it
    returned. *)
Lemma preprocessExposure_stages (exposure : Exposure) (wcs : Wcs)
      (maxBBox destBBox : option Box2I) (w : World) :
  snd (preprocessExposure config env exposure wcs maxBBox destBBox w) =
  rbind (psfMatch_stage config env exposure wcs) (fun matched =>
  rbind (env_warpExposure env wcs matched maxBBox destBBox) (fun warped =>
  env_scaleExposure env (coaddZeroPoint config) warped)).
Proof.
  unfold preprocessExposure, psfMatch_stage.
  destruct (desiredFwhm config) as [fwhm|].
  - unfold bind, log, lift, ret; simpl.
    destruct (pydiv fwhm (pixelScaleArcsec wcs)) as [fwhmPixels|e]; simpl; [|reflexivity].
    destruct (getPsfKernel exposure) as [psf|e]; simpl; [|reflexivity].
    unfold makeModelPsf, kernelDimensions, bind, log, lift; simpl.
    destruct (createPsf _ _ _ _ _ _) as [modelPsf|e]; simpl; [|reflexivity].
    destruct (env_psfMatch env exposure modelPsf) as [matched|e]; simpl; [|reflexivity].
    destruct (env_warpExposure env wcs matched maxBBox destBBox) as [warped|e];
      simpl; [|reflexivity].
    destruct (env_scaleExposure env (coaddZeroPoint config) warped); reflexivity.
  - unfold bind, log, lift, ret; simpl.
    destruct (env_warpExposure env wcs exposure maxBBox destBBox) as [warped|e];
      simpl; [|reflexivity].
    destruct (env_scaleExposure env (coaddZeroPoint config) warped); reflexivity.
Qed.

Lemma preprocess_result_stages (exposure : Exposure) (wcs : Wcs) (bbox : Box2I) :
  preprocess_result config env exposure wcs bbox =
  rbind (psfMatch_stage config env exposure wcs) (fun matched =>
  rbind (env_warpExposure env wcs matched None (Some bbox)) (fun warped =>
  env_scaleExposure env (coaddZeroPoint config) warped)).
Proof. apply preprocessExposure_stages. Qed.

(** Whatever preprocessing returns went through the warper and then
    through the zero point scaler. *)
Lemma preprocessExposure_ok_rescaled (exposure : Exposure) (wcs : Wcs)
      (maxBBox destBBox : option Box2I) (w w1 : World) (x : Exposure) :
  preprocessExposure config env exposure wcs maxBBox destBBox w = (w1, Ok x) ->
  exists matched warped,
    psfMatch_stage config env exposure wcs = Ok matched /\
    env_warpExposure env wcs matched maxBBox destBBox = Ok warped /\
    env_scaleExposure env (coaddZeroPoint config) warped = Ok x.
Proof.
  intros H.
  pose proof (preprocessExposure_stages exposure wcs maxBBox destBBox w) as Hs.
  rewrite H in Hs. simpl in Hs.
  destruct (psfMatch_stage config env exposure wcs) as [matched|e]; [|discriminate].
  simpl in Hs.
  destruct (env_warpExposure env wcs matched maxBBox destBBox) as [warped|e] eqn:Hw;
    [|discriminate].
  simpl in Hs. exists matched, warped. repeat split; [exact Hw|]. symmetry. exact Hs.
Qed.

(** Line 158 reads a name that is bound nowhere. *)
Lemma persistInitPsf_run (patchRef : PatchRef) (fwhm : R) (w : World) :
  persistInitPsf config env patchRef fwhm w =
  (add_log w [(INFO, MsgPersisting (coaddName config ++ "Coadd_initPsf"))],
   Raise (NameError "coaddExposure")).
Proof. reflexivity. Qed.

Section Loop.

Variable patchRef : PatchRef.
Variable bbox : Box2I.
Variable tempExpName : string.

(** The iteration for a skipped exposure logs, ends with a warning that
    names the exposure, and changes neither [wcs] nor [dataRefList]. *)
Lemma loop_body_skipped (numExp ind : nat) (calExpRef : DataRef) (wcs : Wcs)
      (dataRefList : list OutRef) (w : World) :
  skipped config env wcs bbox calExpRef = true ->
  exists l m,
    loop_body config env patchRef bbox numExp (doPsfMatch config) tempExpName
              ind calExpRef wcs dataRefList w
    = (add_log w (l ++ [(WARN, m)]), Ok (wcs, dataRefList)) /\
    (m = MsgCouldNotFind (dataId calExpRef) \/
     exists e, m = MsgErrorPreprocessing (dataId calExpRef) e).
Proof.
  unfold skipped, loop_body. intros Hs.
  destruct (calexpExists calExpRef); simpl in *.
  - destruct (getCalExp calExpRef (doPsfMatch config)) as [exposure|e] eqn:Hget;
      [|discriminate].
    unfold bind, log, lift, try; simpl.
    rewrite preprocessExposure_run.
    destruct (preprocess_result config env exposure wcs bbox) as [x|e]; [discriminate|].
    exists ((INFO, MsgProcessing (ind + 1) numExp (dataId calExpRef))
              :: preprocess_log config env exposure wcs bbox),
           (MsgErrorPreprocessing (dataId calExpRef) e).
    split; [|right; exists e; reflexivity].
    unfold add_log, ret; simpl. rewrite <- !app_assoc. reflexivity.
  - exists [], (MsgCouldNotFind (dataId calExpRef)).
    split; [reflexivity|left; reflexivity].
Qed.

(** The position in the list, the length of the list and the log so far
    show in the log only. *)
Lemma loop_body_outcome (numExp numExp' ind ind' : nat) (calExpRef : DataRef)
      (wcs : Wcs) (dataRefList : list OutRef) (w w' : World) :
  w_store w = w_store w' ->
  outcome (loop_body config env patchRef bbox numExp (doPsfMatch config) tempExpName
                     ind calExpRef wcs dataRefList w)
  = outcome (loop_body config env patchRef bbox numExp' (doPsfMatch config) tempExpName
                       ind' calExpRef wcs dataRefList w').
Proof.
  intros Hst. unfold loop_body.
  destruct (calexpExists calExpRef); simpl.
  - unfold bind, log, lift, try; simpl.
    destruct (getCalExp calExpRef (doPsfMatch config)) as [exposure|e];
      [|unfold outcome; simpl; rewrite Hst; reflexivity].
    rewrite !preprocessExposure_run.
    destruct (preprocess_result config env exposure wcs bbox) as [x|e];
      [|unfold outcome; simpl; rewrite Hst; reflexivity].
    destruct (doWrite config);
      [|unfold outcome; simpl; rewrite Hst; reflexivity].
    unfold put, bind, lift, store; simpl.
    destruct (env_put env tempExpName _ (DsExposure x)) as [[]|e];
      [|unfold outcome; simpl; rewrite Hst; reflexivity].
    destruct (desiredFwhm config) as [fwhm|].
    + rewrite !persistInitPsf_run. unfold outcome; simpl. rewrite Hst. reflexivity.
    + unfold outcome; simpl. rewrite Hst. reflexivity.
  - unfold outcome; simpl. rewrite Hst. reflexivity.
Qed.

Lemma run_loop_outcome (imageRefList : list DataRef) :
  forall (numExp numExp' ind ind' : nat) (wcs : Wcs) (dataRefList : list OutRef)
         (w w' : World),
  w_store w = w_store w' ->
  outcome (run_loop config env patchRef bbox numExp (doPsfMatch config) tempExpName
                    ind imageRefList wcs dataRefList w)
  = outcome (run_loop config env patchRef bbox numExp' (doPsfMatch config) tempExpName
                      ind' imageRefList wcs dataRefList w').
Proof.
  induction imageRefList as [|calExpRef rest IH]; intros numExp numExp' ind ind' wcs acc w w' Hst.
  - unfold outcome; simpl. rewrite Hst. reflexivity.
  - simpl. unfold bind.
    pose proof (loop_body_outcome numExp numExp' ind ind' calExpRef wcs acc w w' Hst) as Hb.
    destruct (loop_body config env patchRef bbox numExp (doPsfMatch config) tempExpName
                        ind calExpRef wcs acc w) as [w1 r1].
    destruct (loop_body config env patchRef bbox numExp' (doPsfMatch config) tempExpName
                        ind' calExpRef wcs acc w') as [w1' r1'].
    unfold outcome in Hb; simpl in Hb. injection Hb as Hst1 Hr. subst r1'.
    destruct r1 as [st|e].
    + apply IH. exact Hst1.
    + unfold outcome; simpl. rewrite Hst1. reflexivity.
Qed.

(** An iteration that ends normally leaves [wcs] as it was: it is only
    assigned on line 158, which raises. *)
Lemma loop_body_wcs (numExp ind : nat) (calExpRef : DataRef) (wcs : Wcs)
      (dataRefList : list OutRef) (w w1 : World) (st : Wcs * list OutRef) :
  loop_body config env patchRef bbox numExp (doPsfMatch config) tempExpName
            ind calExpRef wcs dataRefList w = (w1, Ok st) ->
  fst st = wcs.
Proof.
  unfold loop_body.
  destruct (calexpExists calExpRef); simpl.
  - unfold bind, log, lift, try; simpl.
    destruct (getCalExp calExpRef (doPsfMatch config)) as [exposure|e]; [|discriminate].
    rewrite preprocessExposure_run.
    destruct (preprocess_result config env exposure wcs bbox) as [x|e].
    + destruct (doWrite config).
      * unfold put, bind, lift, store; simpl.
        destruct (env_put env tempExpName _ (DsExposure x)) as [[]|e]; [|discriminate].
        destruct (desiredFwhm config) as [fwhm|].
        -- rewrite persistInitPsf_run. discriminate.
        -- unfold ret. intros H. injection H as _ H. subst st. reflexivity.
      * unfold ret. intros H. injection H as _ H. subst st. reflexivity.
    + unfold ret. intros H. injection H as _ H. subst st. reflexivity.
  - unfold bind, log, ret. intros H. injection H as _ H. subst st. reflexivity.
Qed.

(** Removing a skipped exposure from the list changes neither what the
    loop returns or raises nor what it writes. *)
Lemma run_loop_remove_skipped (pre post : list DataRef) (bad : DataRef) :
  forall (numExp numExp' ind ind' : nat) (wcs : Wcs) (dataRefList : list OutRef)
         (w w' : World),
  skipped config env wcs bbox bad = true ->
  w_store w = w_store w' ->
  outcome (run_loop config env patchRef bbox numExp (doPsfMatch config) tempExpName
                    ind (pre ++ bad :: post) wcs dataRefList w)
  = outcome (run_loop config env patchRef bbox numExp' (doPsfMatch config) tempExpName
                      ind' (pre ++ post) wcs dataRefList w').
Proof.
  induction pre as [|a pre IH]; intros numExp numExp' ind ind' wcs acc w w' Hs Hst.
  - simpl. unfold bind.
    destruct (loop_body_skipped numExp ind bad wcs acc w Hs) as [l [m [Hb _]]].
    rewrite Hb. simpl. apply run_loop_outcome. simpl. exact Hst.
  - simpl. unfold bind.
    pose proof (loop_body_outcome numExp numExp' ind ind' a wcs acc w w' Hst) as Hb.
    pose proof (loop_body_wcs numExp ind a wcs acc w) as Hw.
    destruct (loop_body config env patchRef bbox numExp (doPsfMatch config) tempExpName
                        ind a wcs acc w) as [w1 r1].
    destruct (loop_body config env patchRef bbox numExp' (doPsfMatch config) tempExpName
                        ind' a wcs acc w') as [w1' r1'].
    unfold outcome in Hb; simpl in Hb. injection Hb as Hst1 Hr. subst r1'.
    destruct r1 as [st|e].
    + apply IH; [|exact Hst1]. rewrite (Hw w1 st eq_refl). exact Hs.
    + unfold outcome; simpl. rewrite Hst1. reflexivity.
Qed.

(** When every exposure of the list is skipped the loop returns the list
    of references it started with, and writes nothing. *)
Lemma run_loop_all_skipped (imageRefList : list DataRef) :
  forall (numExp ind : nat) (wcs : Wcs) (dataRefList : list OutRef) (w : World),
  forallb (skipped config env wcs bbox) imageRefList = true ->
  exists l,
    run_loop config env patchRef bbox numExp (doPsfMatch config) tempExpName
             ind imageRefList wcs dataRefList w
    = (add_log w l, Ok dataRefList).
Proof.
  induction imageRefList as [|a rest IH]; intros numExp ind wcs acc w Hall.
  - exists []. rewrite add_log_nil. reflexivity.
  - simpl in Hall. apply andb_prop in Hall. destruct Hall as [Ha Hrest].
    destruct (loop_body_skipped numExp ind a wcs acc w Ha) as [l [m [Hb _]]].
    destruct (IH numExp (S ind) wcs acc (add_log w (l ++ [(WARN, m)])) Hrest) as [l' Hl'].
    exists ((l ++ [(WARN, m)]) ++ l')%list.
    simpl. unfold bind. rewrite Hb. simpl. rewrite Hl', add_log_app. reflexivity.
Qed.

End Loop.


(** No exposure selected: [run] raises at once. *)
Lemma run_nothing_selected (patchRef : PatchRef) (skyInfo : SkyInfo) (w : World) :
  env_getSkyInfo env patchRef = Ok skyInfo ->
  selectExposures env patchRef (wcs skyInfo) (bbox skyInfo) = Ok [] ->
  run config env patchRef w = (w, Raise (TaskError "No exposures to coadd")).
Proof.
  intros Hsky Hsel. unfold run, bind, lift. rewrite Hsky, Hsel. reflexivity.
Qed.

(** Some exposures selected and all of them skipped: [run] returns. *)
Lemma run_all_skipped (patchRef : PatchRef) (skyInfo : SkyInfo)
      (imageRefList : list DataRef) (w : World) :
  env_getSkyInfo env patchRef = Ok skyInfo ->
  selectExposures env patchRef (wcs skyInfo) (bbox skyInfo) = Ok imageRefList ->
  imageRefList <> [] ->
  forallb (skipped config env (wcs skyInfo) (bbox skyInfo)) imageRefList = true ->
  exists l, run config env patchRef w = (add_log w l, Ok (mkStruct [])).
Proof.
  intros Hsky Hsel Hne Hall.
  destruct imageRefList as [|a rest] eqn:Hl; [contradiction|]. rewrite <- Hl in *.
  unfold run, bind, lift. rewrite Hsky, Hsel.
  assert (Hlen : (List.length imageRefList <? 1)%nat = false)
    by (rewrite Hl; reflexivity).
  rewrite Hlen.
  pose proof (fun w0 =>
    @run_loop_all_skipped patchRef (bbox skyInfo) (coaddName config ++ "Coadd_tempExp")
      imageRefList (List.length imageRefList) 0%nat (wcs skyInfo) [] w0 Hall) as HL.
  unfold doPsfMatch in HL.
  destruct (desiredFwhm config) as [fwhm|]; unfold log, ret; simpl;
    match goal with
    | |- context [run_loop _ _ _ _ _ _ _ _ _ _ _ ?w0] =>
        destruct (HL w0) as [l' Hl']; rewrite Hl'
    end;
    eexists; unfold add_log; simpl; rewrite <- !app_assoc; reflexivity.
Qed.

(** Nothing in [run] takes a record off the log. *)
Lemma loop_body_appends_log (patchRef : PatchRef) (bbox : Box2I) (numExp : nat)
      (doPsf : bool) (tempExpName : string) (ind : nat) (calExpRef : DataRef)
      (wcs : Wcs) (dataRefList : list OutRef) :
  appends_log (loop_body config env patchRef bbox numExp doPsf tempExpName
                         ind calExpRef wcs dataRefList).
Proof.
  unfold loop_body, put.
  destruct (calexpExists calExpRef); simpl.
  - apply appends_log_bind; [apply appends_log_log|]. intros _.
    apply appends_log_bind; [apply appends_log_lift|]. intros exposure.
    apply appends_log_bind.
    { apply appends_log_try, logs_only_appends, preprocessExposure_logs_only. }
    intros [x|e].
    + apply appends_log_bind; [|intros wcs'; apply appends_log_ret].
      destruct (doWrite config); [|apply appends_log_ret].
      apply appends_log_bind.
      { apply appends_log_bind; [apply appends_log_lift|].
        intros _. apply appends_log_store. }
      intros _. destruct (desiredFwhm config) as [fwhm|]; [|apply appends_log_ret].
      intros w. rewrite persistInitPsf_run. eexists. reflexivity.
    + apply appends_log_bind; [apply appends_log_log|]. intros _. apply appends_log_ret.
  - apply appends_log_bind; [apply appends_log_log|]. intros _. apply appends_log_ret.
Qed.

Lemma run_loop_appends_log (patchRef : PatchRef) (bbox : Box2I) (numExp : nat)
      (doPsf : bool) (tempExpName : string) (imageRefList : list DataRef) :
  forall (ind : nat) (wcs : Wcs) (dataRefList : list OutRef),
  appends_log (run_loop config env patchRef bbox numExp doPsf tempExpName
                        ind imageRefList wcs dataRefList).
Proof.
  induction imageRefList as [|a rest IH]; intros ind wcs acc; simpl.
  - apply appends_log_ret.
  - apply appends_log_bind; [apply loop_body_appends_log|]. intros st. apply IH.
Qed.

(** Some exposure selected: the test of line 122 is passed and the first
    thing [run] does is to log how many there are; the record stays. *)
Lemma run_something_selected (patchRef : PatchRef) (skyInfo : SkyInfo)
      (imageRefList : list DataRef) (w : World) :
  env_getSkyInfo env patchRef = Ok skyInfo ->
  selectExposures env patchRef (wcs skyInfo) (bbox skyInfo) = Ok imageRefList ->
  imageRefList <> [] ->
  exists l,
    w_log (fst (run config env patchRef w))
    = (w_log w ++ (INFO, MsgCoaddCalexp (List.length imageRefList)) :: l)%list.
Proof.
  intros Hsky Hsel Hne.
  destruct imageRefList as [|a rest] eqn:Hl; [contradiction|]. rewrite <- Hl in *.
  unfold run. unfold bind at 1 2, lift. rewrite Hsky, Hsel.
  assert (Hlen : (List.length imageRefList <? 1)%nat = false)
    by (rewrite Hl; reflexivity).
  rewrite Hlen. unfold bind at 1. unfold log at 1.
  match goal with
  | |- context [fst (?rest ?w0)] =>
      assert (Hrest : appends_log rest)
  end.
  { apply appends_log_bind.
    - destruct (negb _); [apply appends_log_log|apply appends_log_ret].
    - intros _. apply appends_log_bind; [apply run_loop_appends_log|].
      intros l. apply appends_log_ret. }
  match goal with
  | |- context [fst (?rest ?w0)] => destruct (Hrest w0) as [l Hlog]
  end.
  exists l. rewrite Hlog. simpl. rewrite <- app_assoc. reflexivity.
Qed.

(** C1, as the code has it: [run] ends in the [TaskError] of line 123,
    with nothing logged or written, exactly when the selection gives no
    exposure at all; when some exposure is selected the test is passed,
    whatever happens to the exposures afterwards; and when every selected
    exposure is then skipped, [run] returns normally with an empty
    [dataRefList], having written nothing. *)
Theorem run_empty_input (patchRef : PatchRef) (skyInfo : SkyInfo)
        (imageRefList : list DataRef) (w : World) :
  env_getSkyInfo env patchRef = Ok skyInfo ->
  selectExposures env patchRef (wcs skyInfo) (bbox skyInfo) = Ok imageRefList ->
  (imageRefList = [] <->
     run config env patchRef w = (w, Raise (TaskError "No exposures to coadd"))) /\
  (imageRefList <> [] ->
     exists l,
       w_log (fst (run config env patchRef w))
       = (w_log w ++ (INFO, MsgCoaddCalexp (List.length imageRefList)) :: l)%list) /\
  (imageRefList <> [] ->
     forallb (skipped config env (wcs skyInfo) (bbox skyInfo)) imageRefList = true ->
     exists l, run config env patchRef w = (add_log w l, Ok (mkStruct []))).
Proof.
  intros Hsky Hsel. split; [split|split].
  - intros Hnil. subst imageRefList. apply (run_nothing_selected _ _ Hsky Hsel).
  - intros Hrun. destruct imageRefList as [|a rest] eqn:Hl; [reflexivity|]. exfalso.
    assert (Hne : a :: rest <> []) by discriminate.
    destruct (run_something_selected _ w Hsky Hsel Hne) as [l Hlog].
    rewrite Hrun in Hlog. simpl fst in Hlog.
    apply (f_equal (@List.length _)) in Hlog.
    rewrite length_app in Hlog. simpl in Hlog. lia.
  - intros Hne. apply (run_something_selected _ w Hsky Hsel Hne).
  - intros Hne Hall. apply (run_all_skipped _ w Hsky Hsel Hne Hall).
Qed.

(** The log of preprocessing starts with the PSF-match record exactly when
    a FWHM is configured, whatever its sign. *)
Lemma preprocess_log_None (exposure : Exposure) (wcs : Wcs) (bbox : Box2I) :
  desiredFwhm config = None ->
  preprocess_log config env exposure wcs bbox = [(INFO, MsgWarp)].
Proof.
  intros H. unfold preprocess_log, preprocessExposure. rewrite H.
  unfold bind, log, lift, ret; simpl.
  destruct (env_warpExposure env wcs exposure None (Some bbox)) as [warped|e];
    simpl; [|reflexivity].
  destruct (env_scaleExposure env (coaddZeroPoint config) warped); reflexivity.
Qed.

Lemma preprocess_log_Some (exposure : Exposure) (wcs : Wcs) (bbox : Box2I) (fwhm : R) :
  desiredFwhm config = Some fwhm ->
  exists rest, preprocess_log config env exposure wcs bbox = (INFO, MsgPsfMatch) :: rest.
Proof.
  intros H. unfold preprocess_log, preprocessExposure. rewrite H.
  unfold makeModelPsf, bind, log, lift, ret; simpl.
  destruct (pydiv fwhm (pixelScaleArcsec wcs)) as [fwhmPixels|e]; simpl;
    [|eexists; reflexivity].
  destruct (getPsfKernel exposure) as [psf|e]; simpl; [|eexists; reflexivity].
  destruct (createPsf _ _ _ _ _ _) as [modelPsf|e]; simpl; [|eexists; reflexivity].
  destruct (env_psfMatch env exposure modelPsf) as [matched|e]; simpl;
    [|eexists; reflexivity].
  destruct (env_warpExposure env wcs matched None (Some bbox)) as [warped|e];
    simpl; [|eexists; reflexivity].
  destruct (env_scaleExposure env (coaddZeroPoint config) warped);
    eexists; reflexivity.
Qed.

(** C2, as the code has it: the PSF-match step of [preprocessExposure] is
    entered exactly when [desiredFwhm] is not [None]; the sign of the value
    is not looked at.  Without a value the exposure goes to the warper as
    it is; with a value, of any sign, the warper only ever receives what
    the PSF matcher returned. *)
Theorem psfMatch_iff_configured (exposure : Exposure) (wcs : Wcs) (bbox : Box2I) :
  (In (INFO, MsgPsfMatch) (preprocess_log config env exposure wcs bbox)
   <-> desiredFwhm config <> None) /\
  preprocess_result config env exposure wcs bbox =
    rbind (psfMatch_stage config env exposure wcs) (fun matched =>
    rbind (env_warpExposure env wcs matched None (Some bbox)) (fun warped =>
    env_scaleExposure env (coaddZeroPoint config) warped)) /\
  (desiredFwhm config = None -> psfMatch_stage config env exposure wcs = Ok exposure) /\
  (forall fwhm matched,
     desiredFwhm config = Some fwhm ->
     psfMatch_stage config env exposure wcs = Ok matched ->
     exists modelPsf, env_psfMatch env exposure modelPsf = Ok matched).
Proof.
  split; [|split; [apply preprocess_result_stages|split]].
  - destruct (desiredFwhm config) as [fwhm|] eqn:Hd.
    + destruct (preprocess_log_Some exposure wcs bbox Hd) as [rest Hl].
      rewrite Hl. split; [intros _; discriminate|intros _; left; reflexivity].
    + rewrite (preprocess_log_None exposure wcs bbox Hd). split.
      * intros [H|[]]. discriminate.
      * intros H. contradiction.
  - intros Hd. unfold psfMatch_stage. rewrite Hd. reflexivity.
  - intros fwhm matched Hd. unfold psfMatch_stage. rewrite Hd.
    destruct (pydiv fwhm (pixelScaleArcsec wcs)) as [fwhmPixels|e]; simpl; [|discriminate].
    destruct (getPsfKernel exposure) as [psf|e]; simpl; [|discriminate].
    destruct (createPsf _ _ _ _ _ _) as [modelPsf|e]; simpl; [|discriminate].
    intros H. exists modelPsf. exact H.
Qed.

(** With a PSF on the exposure and a pixel scale that is not zero, a FWHM
    that is not positive makes the PSF-match stage raise. *)
Lemma psfMatch_stage_nonpositive (exposure : Exposure) (wcs : Wcs) (fwhm : R) (psf : Psf) :
  desiredFwhm config = Some fwhm ->
  (fwhm <= 0)%R ->
  (0 < pixelScaleArcsec wcs)%R ->
  exp_psf exposure = Some psf ->
  psfMatch_stage config env exposure wcs = Raise InvalidParameter.
Proof.
  intros Hd Hf Hs Hp. unfold psfMatch_stage. rewrite Hd.
  rewrite pydiv_ok by lra. simpl.
  unfold getPsfKernel. rewrite Hp. simpl.
  rewrite modelPsf_invalid; [reflexivity|].
  left. unfold Rdiv.
  assert (0 < / pixelScaleArcsec wcs)%R by (apply Rinv_0_lt_compat; exact Hs).
  nra.
Qed.

Lemma getCalExp_with_psf (calExpRef : DataRef) (exposure : Exposure) :
  getCalExp calExpRef true = Ok exposure ->
  exists psf, exp_psf exposure = Some psf.
Proof.
  unfold getCalExp.
  destruct (get_calexp calExpRef) as [e0|e]; simpl; [|discriminate].
  destruct (get_psf calExpRef) as [psf|e]; simpl; [|discriminate].
  intros H. injection H as H. subst exposure. exists psf. reflexivity.
Qed.

Section LoopClaims.

Variable patchRef : PatchRef.
Variable bbox : Box2I.
Variable tempExpName : string.

(** Every dataset an iteration writes is a rescaled exposure. *)
Lemma loop_body_store (numExp ind : nat) (doPsf : bool) (calExpRef : DataRef) (wcs : Wcs)
      (dataRefList : list OutRef) (w : World) :
  exists new,
    w_store (fst (loop_body config env patchRef bbox numExp doPsf tempExpName
                            ind calExpRef wcs dataRefList w)) = (w_store w ++ new)%list /\
    Forall (fun entry => rescaled config env (se_dataset entry)) new.
Proof.
  unfold loop_body.
  destruct (calexpExists calExpRef); simpl;
    [|exists []; rewrite app_nil_r; split; [reflexivity|constructor]].
  unfold bind, log, lift, try; simpl.
  destruct (getCalExp calExpRef doPsf) as [exposure|e];
    [|exists []; rewrite app_nil_r; split; [reflexivity|constructor]].
  destruct (preprocessExposure config env exposure wcs None (Some bbox) _)
    as [w1 r] eqn:Hp.
  assert (Hst : w_store w1 = w_store w).
  { rewrite preprocessExposure_run in Hp. injection Hp as Hw _. subst w1. reflexivity. }
  destruct r as [x|e];
    [|simpl; exists []; rewrite app_nil_r; split; [exact Hst|constructor]].
  destruct (preprocessExposure_ok_rescaled _ _ _ _ _ Hp) as [matched [warped [_ [Hw Hsc]]]].
  destruct (doWrite config);
    [|simpl; exists []; rewrite app_nil_r; split; [exact Hst|constructor]].
  unfold put, bind, lift, store; simpl.
  destruct (env_put env tempExpName _ (DsExposure x)) as [[]|e];
    [|simpl; exists []; rewrite app_nil_r; split; [exact Hst|constructor]].
  exists [mkStoreEntry tempExpName
                       (dict_update (dataId calExpRef) (patch_dataId patchRef))
                       (DsExposure x)].
  split.
  - destruct (desiredFwhm config) as [fwhm|].
    + rewrite persistInitPsf_run. simpl. rewrite Hst. reflexivity.
    + simpl. rewrite Hst. reflexivity.
  - constructor; [|constructor]. simpl.
    exists x, warped. split; [reflexivity|]. split; [exact Hsc|].
    exists wcs, matched, None, (Some bbox). exact Hw.
Qed.

Lemma run_loop_store (doPsf : bool) (imageRefList : list DataRef) :
  forall (numExp ind : nat) (wcs : Wcs) (dataRefList : list OutRef) (w : World),
  exists new,
    w_store (fst (run_loop config env patchRef bbox numExp doPsf tempExpName
                           ind imageRefList wcs dataRefList w)) = (w_store w ++ new)%list /\
    Forall (fun entry => rescaled config env (se_dataset entry)) new.
Proof.
  induction imageRefList as [|a rest IH]; intros numExp ind wcs acc w.
  - exists []. rewrite app_nil_r. split; [reflexivity|constructor].
  - simpl. unfold bind.
    destruct (loop_body_store numExp ind doPsf a wcs acc w) as [new1 [H1 F1]].
    destruct (loop_body config env patchRef bbox numExp doPsf tempExpName ind a wcs acc w)
      as [w1 r1].
    simpl in H1. destruct r1 as [st|e].
    + destruct (IH numExp (S ind) (fst st) (snd st) w1) as [new2 [H2 F2]].
      exists (new1 ++ new2)%list. split.
      * rewrite H2, H1, app_assoc. reflexivity.
      * apply Forall_app. split; assumption.
    + exists new1. split; [exact H1|exact F1].
Qed.

(** C3, as the code has it: an exposure whose calexp is missing, or whose
    preprocessing raises (in the model builder, the PSF matcher, the warper
    or the zero point scaler), is skipped: its iteration logs, ends with a
    warning that names it, and leaves the variables of the loop as they
    were; what the loop returns or raises and what it writes are the same
    as for the list without that exposure. *)
Theorem run_skips_failed_exposure (pre post : list DataRef) (bad : DataRef)
        (wcs : Wcs) (w : World) :
  skipped config env wcs bbox bad = true ->
  (forall numExp ind dataRefList w0, exists l m,
     loop_body config env patchRef bbox numExp (doPsfMatch config) tempExpName
               ind bad wcs dataRefList w0
     = (add_log w0 (l ++ [(WARN, m)]), Ok (wcs, dataRefList)) /\
     (m = MsgCouldNotFind (dataId bad) \/
      exists e, m = MsgErrorPreprocessing (dataId bad) e)) /\
  outcome (run_loop config env patchRef bbox (List.length (pre ++ bad :: post))
                    (doPsfMatch config) tempExpName 0 (pre ++ bad :: post) wcs [] w)
  = outcome (run_loop config env patchRef bbox (List.length (pre ++ post))
                      (doPsfMatch config) tempExpName 0 (pre ++ post) wcs [] w).
Proof.
  intros Hs. split.
  - intros numExp ind acc w0. apply loop_body_skipped. exact Hs.
  - apply run_loop_remove_skipped; [exact Hs|reflexivity].
Qed.

(** C5, as the code has it: the builder fails with [InvalidParameter] when
    the FWHM or a dimension of the kernel is not positive; the call of the
    builder that [run] reaches is the one inside [preprocessExposure], so
    the error is caught by the handler of the loop: the exposure is skipped
    with a warning and the loop goes on. *)
Theorem invalid_parameter_is_skipped (numExp ind : nat) (calExpRef : DataRef)
        (wcs : Wcs) (dataRefList : list OutRef) (w : World)
        (fwhm : R) (exposure : Exposure) :
  desiredFwhm config = Some fwhm ->
  (fwhm <= 0)%R ->
  (0 < pixelScaleArcsec wcs)%R ->
  calexpExists calExpRef = true ->
  getCalExp calExpRef (doPsfMatch config) = Ok exposure ->
  (forall f width height w0,
     (f <= 0)%R \/ width <= 0 \/ height <= 0 ->
     snd (makeModelPsf f (width, height) w0) = Raise InvalidParameter) /\
  preprocess_result config env exposure wcs bbox = Raise InvalidParameter /\
  exists l,
    loop_body config env patchRef bbox numExp (doPsfMatch config) tempExpName
              ind calExpRef wcs dataRefList w
    = (add_log w (l ++ [(WARN, MsgErrorPreprocessing (dataId calExpRef) InvalidParameter)]),
       Ok (wcs, dataRefList)).
Proof.
  intros Hd Hf Hs Hex Hget.
  assert (Hdo : doPsfMatch config = true) by (unfold doPsfMatch; rewrite Hd; reflexivity).
  assert (Hres : preprocess_result config env exposure wcs bbox = Raise InvalidParameter).
  { rewrite Hdo in Hget. destruct (getCalExp_with_psf _ Hget) as [psf Hpsf].
    rewrite preprocess_result_stages.
    rewrite (psfMatch_stage_nonpositive _ _ Hd Hf Hs Hpsf). reflexivity. }
  split; [|split; [exact Hres|]].
  - intros f width height w0 H. rewrite makeModelPsf_run. simpl.
    apply modelPsf_invalid. exact H.
  - unfold loop_body. rewrite Hex. simpl.
    unfold bind, log, lift, try; simpl. rewrite Hget.
    rewrite preprocessExposure_run, Hres. simpl.
    exists ((INFO, MsgProcessing (ind + 1) numExp (dataId calExpRef))
              :: preprocess_log config env exposure wcs bbox).
    unfold add_log, ret; simpl. rewrite <- !app_assoc. reflexivity.
Qed.

End LoopClaims.

(** C4: an exposure that preprocessing returns has been through the
    warper and then through the zero point scaler of the task, and every
    dataset that [run] writes to the repository is such an exposure: no
    exposure is emitted without the rescale step. *)
Theorem emitted_exposures_are_rescaled (patchRef : PatchRef) (w : World) :
  (forall exposure wcs maxBBox destBBox w0 w1 x,
     preprocessExposure config env exposure wcs maxBBox destBBox w0 = (w1, Ok x) ->
     exists matched warped,
       env_warpExposure env wcs matched maxBBox destBBox = Ok warped /\
       env_scaleExposure env (coaddZeroPoint config) warped = Ok x) /\
  (exists new,
     w_store (fst (run config env patchRef w)) = (w_store w ++ new)%list /\
     Forall (fun entry => rescaled config env (se_dataset entry)) new).
Proof.
  split.
  - intros exposure wcs maxBBox destBBox w0 w1 x H.
    destruct (preprocessExposure_ok_rescaled _ _ _ _ _ H) as [m [wd [_ [Hw Hs]]]].
    exists m, wd. split; assumption.
  - unfold run, bind, lift.
    destruct (env_getSkyInfo env patchRef) as [skyInfo|e];
      [|exists []; rewrite app_nil_r; split; [reflexivity|constructor]].
    destruct (selectExposures env patchRef (wcs skyInfo) (bbox skyInfo))
      as [imageRefList|e];
      [|exists []; rewrite app_nil_r; split; [reflexivity|constructor]].
    destruct (List.length imageRefList <? 1)%nat;
      [exists []; rewrite app_nil_r; split; [reflexivity|constructor]|].
    unfold log at 1. simpl.
    match goal with
    | |- context [(if ?b then ?m1 else ?m2) ?w0] =>
        assert (Hw0 : exists w0', (if b then m1 else m2) w0 = (w0', Ok tt)
                                  /\ w_store w0' = w_store w)
          by (destruct b; eexists; split; reflexivity);
        destruct Hw0 as [w0' [Hw0 Hst0]]; rewrite Hw0
    end.
    match goal with
    | |- context [run_loop ?c ?e ?p ?b ?n ?d ?t ?i ?r ?wc ?a ?w0] =>
        destruct (run_loop_store p b t d r n i wc a w0) as [new [Hn Fn]];
        destruct (run_loop c e p b n d t i r wc a w0) as [w2 r2]
    end.
    exists new. split; [|exact Fn].
    simpl in Hn. destruct r2; simpl; rewrite Hn, Hst0; reflexivity.
Qed.

(** C8: for a positive FWHM and positive dimensions the builder returns,
    in every world the same double Gaussian of the dimensions asked for:
    the width of the core is FWHM / (2 sqrt (2 ln 2)), so that the core is
    at half its peak at distance FWHM / 2 from the centre; the width of the
    wings is 2.5 times that of the core; the peak of the wings is 0.1 times
    the peak of the core. *)
Theorem makeModelPsf_double_gaussian (fwhm : R) (width height : Z) :
  (0 < fwhm)%R -> 0 < width -> 0 < height ->
  exists psf,
    (forall w, snd (makeModelPsf fwhm (width, height) w) = Ok psf) /\
    psf_name psf = "DoubleGaussian" /\
    psf_width psf = width /\ psf_height psf = height /\
    psf_sigma1 psf = (fwhm / (2 * sqrt (2 * ln 2)))%R /\
    psf_sigma2 psf = (2.5 * psf_sigma1 psf)%R /\
    psf_b psf = 0.1%R /\
    wingProfile psf 0 = (0.1 * coreProfile psf 0)%R /\
    coreProfile psf (fwhm / 2) = (coreProfile psf 0 / 2)%R.
Proof.
  intros Hf Hw Hh.
  exists (mkPsf "DoubleGaussian" width height
                (fwhm / FWHMPerSigma) (fwhm / FWHMPerSigma * 2.5) 0.1).
  split.
  { intros w. rewrite makeModelPsf_run. simpl. apply modelPsf_ok; assumption. }
  assert (H0 : forall x : R, exp (- (0 * 0) / x) = 1%R).
  { intros x. replace (- (0 * 0) / x)%R with 0%R by (unfold Rdiv; ring). apply exp_0. }
  simpl. repeat split; try reflexivity.
  - ring.
  - unfold wingProfile, coreProfile; simpl. rewrite !H0. reflexivity.
  - unfold coreProfile; simpl. rewrite (half_maximum Hf), H0. lra.
Qed.

End MakeCoaddTempExpFacts.

(** * Properties of coadd.py *)

Section CoaddFacts.

Import Coadd.

Variable env : Env.

Lemma existsb_eqb_absent (name : string) (names : list string) :
  ~ In name names -> existsb (String.eqb name) names = false.
Proof.
  induction names as [|n rest IH]; intros Hnot; simpl; [reflexivity|].
  destruct (String.eqb_spec name n) as [Heq|Hne].
  - exfalso. apply Hnot. left. symmetry. exact Heq.
  - apply IH. intros Hin. apply Hnot. right. exact Hin.
Qed.

(** Every record of the log needs [self]. *)
Lemma log_info_raises (msg : Msg) (w : World) :
  log_info msg w = (w, Raise (NameError "self")).
Proof. reflexivity. Qed.

(** C10: [CoaddTask] cannot be constructed and [run] cannot return.  When
    neither [pipeBase.Task] nor a base of it defines [pipeBase] or a
    [__getattr__], the first expression of [__init__] raises
    [AttributeError].  In [run], the names [self], [pexLog] and [policy]
    are bound nowhere: a call with an empty list raises the [RuntimeError]
    of line 70, every other call raises [NameError] at the first record of
    the log, and the lines from the construction of the accumulator on
    raise [NameError] wherever they are started; no call returns a coadd. *)
Theorem CoaddTask_never_runs (butler : Butler) (idList : list DataId)
        (coaddBBox : Box2I) (coaddWcs : Wcs) (desFwhm : R) (w : World) :
  ~ In "pipeBase" (env_base_attrs env) ->
  ~ In "__getattr__" (env_base_attrs env) ->
  init env = Raise (AttributeError "pipeBase") /\
  lookup_name module_globals "self" = Raise (NameError "self") /\
  lookup_name module_globals "pexLog" = Raise (NameError "pexLog") /\
  lookup_name module_globals "policy" = Raise (NameError "policy") /\
  run env butler idList coaddBBox coaddWcs desFwhm w =
    (w, Raise (match idList with
               | [] => RuntimeError "No exposures to coadd!"
               | _ :: _ => NameError "self"
               end)) /\
  (forall numExp w0,
     run_tail env butler idList coaddBBox coaddWcs desFwhm numExp w0 =
     (w0, Raise (NameError "policy"))) /\
  (forall result, snd (run env butler idList coaddBBox coaddWcs desFwhm w) <> Ok result).
Proof.
  intros Hpb Hga.
  assert (Hrun : run env butler idList coaddBBox coaddWcs desFwhm w =
    (w, Raise (match idList with
               | [] => RuntimeError "No exposures to coadd!"
               | _ :: _ => NameError "self"
               end))).
  { unfold run. destruct idList as [|id rest]; [reflexivity|].
    simpl. unfold bind. rewrite log_info_raises. reflexivity. }
  split; [|split; [reflexivity|split; [reflexivity|split; [reflexivity|
            split; [exact Hrun|split; [reflexivity|]]]]]].
  - unfold init, instance_getattr. cbn [assoc].
    assert (Hc : forall name, ~ In name (env_base_attrs env) ->
                 existsb (String.eqb name) class_attrs = false ->
                 existsb (String.eqb name) (class_attrs ++ env_base_attrs env) = false).
    { intros name Hn Hcl. rewrite existsb_app, Hcl. simpl.
      apply existsb_eqb_absent. exact Hn. }
    rewrite (Hc "pipeBase" Hpb eq_refl), (Hc "__getattr__" Hga eq_refl). reflexivity.
  - intros result. rewrite Hrun. simpl. discriminate.
Qed.

End CoaddFacts.

(** * The properties at concrete inputs *)

Section Closed.

Import MakeCoaddTempExp.

Lemma ex_good_loads (config : Config) :
  doPsfMatch config = true ->
  getCalExp ex_good (doPsfMatch config) = Ok (setPsf ex_exposure ex_psf).
Proof. intros H. rewrite H. reflexivity. Qed.

(** With a FWHM of zero the one exposure of the repository is skipped. *)
Lemma ex_good_skipped_at_zero (selected : list DataRef) :
  preprocess_result cfg_zero (ex_env selected) (setPsf ex_exposure ex_psf) ex_wcs ex_bbox
  = Raise InvalidParameter.
Proof.
  rewrite preprocess_result_stages.
  rewrite (@psfMatch_stage_nonpositive cfg_zero (ex_env selected)
             (setPsf ex_exposure ex_psf) ex_wcs 0%R ex_psf eq_refl);
    [reflexivity|lra|simpl; lra|reflexivity].
Qed.

(** Without PSF matching the same exposure is preprocessed. *)
Lemma ex_good_preprocessed (selected : list DataRef) (exposure : Exposure) :
  exp_fluxMag0 exposure = 100%R ->
  is_ok (preprocess_result cfg_nomatch (ex_env selected) exposure ex_wcs ex_bbox) = true.
Proof.
  intros Hf. rewrite preprocess_result_stages. simpl.
  unfold zeroPointScale. simpl. rewrite Hf, Rleb_false by lra. reflexivity.
Qed.

(** With a FWHM of one arc second it is matched, warped and rescaled. *)
Lemma ex_good_matched (selected : list DataRef) :
  is_ok (preprocess_result cfg_match (ex_env selected) (setPsf ex_exposure ex_psf)
                           ex_wcs ex_bbox) = true.
Proof.
  rewrite preprocess_result_stages. unfold psfMatch_stage. simpl.
  rewrite pydiv_ok by lra. simpl.
  rewrite modelPsf_ok; [|lra|lia|lia]. simpl.
  unfold zeroPointScale. simpl. rewrite Rleb_false by lra. reflexivity.
Qed.

Lemma run_empty_input_witness :
  env_getSkyInfo (ex_env [ex_missing]) ex_patchRef = Ok (mkSkyInfo ex_wcs ex_bbox) /\
  selectExposures (ex_env [ex_missing]) ex_patchRef ex_wcs ex_bbox = Ok [ex_missing] /\
  exists l, run cfg_nomatch (ex_env [ex_missing]) ex_patchRef emptyWorld
            = (add_log emptyWorld l, Ok (mkStruct [])).
Proof.
  split; [reflexivity|]. split; [reflexivity|].
  destruct (@run_empty_input cfg_nomatch (ex_env [ex_missing]) ex_patchRef
              (mkSkyInfo ex_wcs ex_bbox) [ex_missing] emptyWorld eq_refl eq_refl)
    as [_ [_ H]].
  apply H; [discriminate|reflexivity].
Defined.

(** The one selected exposure is not in the repository: it is skipped,
    none remains, and [run] returns an empty list instead of raising. *)
Lemma run_all_skipped_counterexample :
  selectExposures (ex_env [ex_missing]) ex_patchRef ex_wcs ex_bbox = Ok [ex_missing] /\
  forallb (skipped cfg_nomatch (ex_env [ex_missing]) ex_wcs ex_bbox) [ex_missing] = true /\
  run cfg_nomatch (ex_env [ex_missing]) ex_patchRef emptyWorld
  = (mkWorld [ (INFO, MsgCoaddCalexp 1); (INFO, MsgNoPsfMatching);
               (WARN, MsgCouldNotFind (dataId ex_missing)) ] [],
     Ok (mkStruct [])) /\
  ~ (exists msg, snd (run cfg_nomatch (ex_env [ex_missing]) ex_patchRef emptyWorld)
                 = Raise (TaskError msg)).
Proof.
  split; [reflexivity|]. split; [reflexivity|]. split; [reflexivity|].
  intros [msg H]. discriminate H.
Qed.

(** A FWHM of zero is configured: the PSF-match step is entered all the
    same and the exposure is lost to it, while without a FWHM the same
    exposure is preprocessed. *)
Lemma psfMatch_nonpositive_counterexample :
  desiredFwhm cfg_zero = Some 0%R /\
  In (INFO, MsgPsfMatch)
     (preprocess_log cfg_zero (ex_env [ex_good]) (setPsf ex_exposure ex_psf) ex_wcs ex_bbox) /\
  preprocess_result cfg_zero (ex_env [ex_good]) (setPsf ex_exposure ex_psf) ex_wcs ex_bbox
  = Raise InvalidParameter /\
  ~ In (INFO, MsgPsfMatch)
       (preprocess_log cfg_nomatch (ex_env [ex_good]) (setPsf ex_exposure ex_psf)
                       ex_wcs ex_bbox) /\
  is_ok (preprocess_result cfg_nomatch (ex_env [ex_good]) (setPsf ex_exposure ex_psf)
                           ex_wcs ex_bbox) = true.
Proof.
  split; [reflexivity|]. split; [|split; [apply ex_good_skipped_at_zero|split]].
  - destruct (@preprocess_log_Some cfg_zero (ex_env [ex_good]) (setPsf ex_exposure ex_psf)
                ex_wcs ex_bbox 0%R eq_refl) as [rest H].
    rewrite H. left. reflexivity.
  - rewrite (@preprocess_log_None cfg_nomatch (ex_env [ex_good])
               (setPsf ex_exposure ex_psf) ex_wcs ex_bbox eq_refl).
    intros [H|[]]. discriminate H.
  - apply ex_good_preprocessed. reflexivity.
Qed.

Lemma run_skips_failed_exposure_witness :
  skipped cfg_nomatch (ex_env [ex_good; ex_missing]) ex_wcs ex_bbox ex_missing = true /\
  outcome (run_loop cfg_nomatch (ex_env [ex_good; ex_missing]) ex_patchRef ex_bbox 2
                    (doPsfMatch cfg_nomatch) "deepCoadd_tempExp" 0
                    ([ex_good] ++ ex_missing :: []) ex_wcs [] emptyWorld)
  = outcome (run_loop cfg_nomatch (ex_env [ex_good; ex_missing]) ex_patchRef ex_bbox 1
                      (doPsfMatch cfg_nomatch) "deepCoadd_tempExp" 0
                      ([ex_good] ++ []) ex_wcs [] emptyWorld).
Proof.
  split; [reflexivity|].
  apply (@run_skips_failed_exposure cfg_nomatch (ex_env [ex_good; ex_missing]) ex_patchRef
           ex_bbox "deepCoadd_tempExp" [ex_good] [] ex_missing ex_wcs emptyWorld eq_refl).
Defined.

(** The PSF of the first exposure cannot be loaded: [run] is aborted by
    the exception, although the second exposure is one it would not skip. *)
Lemma run_load_failure_counterexample :
  selectExposures (ex_env [ex_nopsf; ex_good]) ex_patchRef ex_wcs ex_bbox
  = Ok [ex_nopsf; ex_good] /\
  calexpExists ex_nopsf = true /\
  get_psf ex_nopsf = Raise LoadFailure /\
  skipped cfg_match (ex_env [ex_nopsf; ex_good]) ex_wcs ex_bbox ex_good = false /\
  run cfg_match (ex_env [ex_nopsf; ex_good]) ex_patchRef emptyWorld
  = (mkWorld [ (INFO, MsgCoaddCalexp 2);
               (INFO, MsgProcessing 1 2 (dataId ex_nopsf)) ] [],
     Raise LoadFailure).
Proof.
  split; [reflexivity|]. split; [reflexivity|]. split; [reflexivity|].
  split; [|reflexivity].
  unfold skipped. simpl.
  change (getCalExp ex_good true) with (Ok (setPsf ex_exposure ex_psf)).
  rewrite ex_good_matched. reflexivity.
Qed.

Lemma invalid_parameter_is_skipped_witness :
  desiredFwhm cfg_zero = Some 0%R /\ (0 <= 0)%R /\ (0 < pixelScaleArcsec ex_wcs)%R /\
  calexpExists ex_good = true /\
  getCalExp ex_good (doPsfMatch cfg_zero) = Ok (setPsf ex_exposure ex_psf) /\
  preprocess_result cfg_zero (ex_env [ex_good]) (setPsf ex_exposure ex_psf) ex_wcs ex_bbox
  = Raise InvalidParameter.
Proof.
  assert (H1 : (0 <= 0)%R) by lra.
  assert (H2 : (0 < pixelScaleArcsec ex_wcs)%R) by (simpl; lra).
  repeat (split; [first [reflexivity | assumption]|]).
  destruct (@invalid_parameter_is_skipped cfg_zero (ex_env [ex_good]) ex_patchRef ex_bbox
              "deepCoadd_tempExp" 1 0 ex_good ex_wcs [] emptyWorld 0%R
              (setPsf ex_exposure ex_psf) eq_refl H1 H2 eq_refl eq_refl)
    as [_ [H _]].
  exact H.
Defined.

(** The builder is called with a FWHM of zero and fails with
    [InvalidParameter]; [run] does not raise it: the exposure is skipped
    and [run] returns. *)
Lemma invalid_parameter_counterexample :
  snd (makeModelPsf (0 / pixelScaleArcsec ex_wcs) (kernelDimensions ex_psf) emptyWorld)
  = Raise InvalidParameter /\
  preprocess_result cfg_zero (ex_env [ex_good]) (setPsf ex_exposure ex_psf) ex_wcs ex_bbox
  = Raise InvalidParameter /\
  (exists l, run cfg_zero (ex_env [ex_good]) ex_patchRef emptyWorld
             = (add_log emptyWorld l, Ok (mkStruct []))) /\
  snd (run cfg_zero (ex_env [ex_good]) ex_patchRef emptyWorld) <> Raise InvalidParameter.
Proof.
  assert (Hrun : exists l, run cfg_zero (ex_env [ex_good]) ex_patchRef emptyWorld
                           = (add_log emptyWorld l, Ok (mkStruct []))).
  { apply (@run_all_skipped cfg_zero (ex_env [ex_good]) ex_patchRef
             (mkSkyInfo ex_wcs ex_bbox) [ex_good] emptyWorld eq_refl eq_refl);
      [discriminate|].
    simpl. unfold skipped. simpl.
    change (getCalExp ex_good true) with (Ok (setPsf ex_exposure ex_psf)).
    rewrite ex_good_skipped_at_zero. reflexivity. }
  split; [|split; [apply ex_good_skipped_at_zero|split; [exact Hrun|]]].
  - rewrite makeModelPsf_run. simpl. apply modelPsf_invalid. left. simpl. lra.
  - destruct Hrun as [l Hl]. rewrite Hl. simpl. discriminate.
Qed.

Lemma makeModelPsf_double_gaussian_witness :
  (0 < 3)%R /\ 0 < 5 /\
  exists psf, (forall w, snd (makeModelPsf 3 (5, 5) w) = Ok psf) /\
              psf_sigma1 psf = (3 / (2 * sqrt (2 * ln 2)))%R /\
              psf_sigma2 psf = (2.5 * psf_sigma1 psf)%R /\
              psf_b psf = 0.1%R.
Proof.
  assert (H3 : (0 < 3)%R) by lra.
  assert (H5 : 0 < 5) by lia.
  split; [exact H3|]. split; [exact H5|].
  destruct (@makeModelPsf_double_gaussian 3%R 5 5 H3 H5 H5)
    as [psf [Hrun [_ [_ [_ [H1 [H2 [Hb _]]]]]]]].
  exists psf. repeat split; assumption.
Defined.

End Closed.

Section ClosedProcessCoadd.

Import ProcessCoadd.

Lemma ex_no_nChild : ~ In nChildKeyName ex_schema_plain.
Proof.
  intros H. simpl in H.
  repeat (destruct H as [H|H]; [discriminate H|]). exact H.
Qed.

Lemma ex_setIsPrimaryFlag :
  setIsPrimaryFlag ex_pc_config ex_schema_deblend ex_sources ex_skyInfo = Ok ex_classified.
Proof. reflexivity. Qed.



Lemma setIsPrimaryFlag_schema_inconsistency_witness :
  doDeblend ex_pc_config = true /\
  ~ In nChildKeyName ex_schema_plain /\
  setIsPrimaryFlag ex_pc_config ex_schema_plain ex_sources ex_skyInfo =
  Raise (RuntimeError "Ran the deblender but cannot find 'deblend_nChild' in the source table").
Proof.
  split; [reflexivity|]. split; [exact ex_no_nChild|].
  apply (@setIsPrimaryFlag_schema_inconsistency ex_pc_config ex_schema_plain ex_skyInfo
           ex_sources eq_refl ex_no_nChild).
Defined.

Lemma setIsPrimaryFlag_centroid_unknown_witness :
  setIsPrimaryFlag ex_pc_config ex_schema_deblend ex_sources ex_skyInfo = Ok ex_classified /\
  nth_error ex_sources 2 = Some ex_flagged /\
  src_centroidFlag ex_flagged = true /\
  exists s', nth_error ex_classified 2 = Some s' /\ s' = ex_flagged /\
             detect_isPatchInner s' = false /\
             detect_isTractInner s' = false /\
             detect_isPrimary s' = false.
Proof.
  split; [exact ex_setIsPrimaryFlag|]. split; [reflexivity|]. split; [reflexivity|].
  apply (@setIsPrimaryFlag_centroid_unknown ex_pc_config ex_schema_deblend ex_skyInfo
           ex_sources ex_classified 2 ex_flagged ex_setIsPrimaryFlag
           eq_refl eq_refl eq_refl eq_refl eq_refl).
Defined.

End ClosedProcessCoadd.

Section ClosedCoadd.

Import Coadd.

Lemma CoaddTask_never_runs_witness :
  ~ In "pipeBase" (env_base_attrs ex_coadd_env) /\
  ~ In "__getattr__" (env_base_attrs ex_coadd_env) /\
  init ex_coadd_env = Raise (AttributeError "pipeBase") /\
  run ex_coadd_env ex_butler [[("visit", "1")]] ex_bbox ex_wcs 1 emptyWorld
  = (emptyWorld, Raise (NameError "self")).
Proof.
  assert (H1 : ~ In "pipeBase" (env_base_attrs ex_coadd_env)).
  { intros H. simpl in H. repeat (destruct H as [H|H]; [discriminate H|]). exact H. }
  assert (H2 : ~ In "__getattr__" (env_base_attrs ex_coadd_env)).
  { intros H. simpl in H. repeat (destruct H as [H|H]; [discriminate H|]). exact H. }
  split; [exact H1|]. split; [exact H2|].
  destruct (@CoaddTask_never_runs ex_coadd_env ex_butler [[("visit", "1")]] ex_bbox ex_wcs
              1%R emptyWorld H1 H2) as [Hi [_ [_ [_ [Hr _]]]]].
  split; [exact Hi|exact Hr].
Defined.

End ClosedCoadd.

(** * Further properties of makeCoaddTempExp.py *)

Section DataIds.

(** [dict_set] is the assignment [d[k] = v]. *)
Lemma dict_set_lookup (d : DataId) (k v k' : string) :
  assoc (dict_set d k v) k' = if String.eqb k k' then Some v else assoc d k'.
Proof.
  induction d as [|[k0 v0] rest IH]; simpl.
  - reflexivity.
  - destruct (String.eqb_spec k0 k) as [Heq|Hne]; simpl.
    + subst k0. destruct (String.eqb k k'); reflexivity.
    + rewrite IH.
      destruct (String.eqb_spec k0 k') as [Heq'|Hne']; [|reflexivity].
      subst k0. destruct (String.eqb_spec k k') as [H|H]; [congruence|reflexivity].
Qed.

(** After [d.update(other)] a key of [other] has the value [other] gives
    it (the last one when the list repeats a key), and any other key has
    the value it had in [d]. *)
Lemma dict_update_lookup (other : DataId) :
  forall (d : DataId) (k : string),
  assoc (dict_update d other) k =
  match assoc (rev other) k with
  | Some v => Some v
  | None => assoc d k
  end.
Proof.
  unfold dict_update.
  induction other as [|[k0 v0] rest IH]; intros d k; simpl.
  - reflexivity.
  - rewrite IH.
    assert (Happ : forall l1 l2 : DataId,
               assoc (l1 ++ l2) k =
               match assoc l1 k with Some v => Some v | None => assoc l2 k end).
    { induction l1 as [|[a b] l1 IH1]; intros l2; simpl; [reflexivity|].
      destruct (String.eqb a k); [reflexivity|apply IH1]. }
    rewrite Happ. simpl.
    destruct (assoc (rev rest) k); [reflexivity|].
    rewrite dict_set_lookup. destruct (String.eqb k0 k); reflexivity.
Qed.

Lemma assoc_In (d : DataId) (k v : string) : assoc d k = Some v -> In (k, v) d.
Proof.
  induction d as [|[a b] rest IH]; simpl; [discriminate|].
  destruct (String.eqb_spec a k) as [Heq|Hne].
  - intros H. injection H as H. subst. left. reflexivity.
  - intros H. right. apply IH. exact H.
Qed.

Lemma In_assoc_NoDup (d : DataId) (k v : string) :
  NoDup (map fst d) -> In (k, v) d -> assoc d k = Some v.
Proof.
  induction d as [|[a b] rest IH]; simpl; intros Hnd Hin; [destruct Hin|].
  inversion Hnd as [|x l Hnot Hnd']; subst.
  destruct Hin as [Heq|Hin].
  - injection Heq as Ha Hb. subst. rewrite String.eqb_refl. reflexivity.
  - destruct (String.eqb_spec a k) as [Heq|Hne].
    + subst a. exfalso. apply Hnot. apply (in_map fst) in Hin. exact Hin.
    + apply IH; assumption.
Qed.

(** For a dictionary (no key twice) the values of [other] win. *)
Lemma dict_update_lookup_NoDup (d other : DataId) (k : string) :
  NoDup (map fst other) ->
  assoc (dict_update d other) k =
  match assoc other k with
  | Some v => Some v
  | None => assoc d k
  end.
Proof.
  intros Hnd. rewrite dict_update_lookup.
  assert (Hrev : assoc (rev other) k = assoc other k).
  { destruct (assoc other k) as [v|] eqn:Ha.
    - apply In_assoc_NoDup.
      + rewrite map_rev. apply NoDup_rev. exact Hnd.
      + apply in_rev. rewrite rev_involutive. apply assoc_In. exact Ha.
    - destruct (assoc (rev other) k) as [v|] eqn:Hr; [|reflexivity].
      apply assoc_In in Hr. apply in_rev in Hr.
      rewrite (@In_assoc_NoDup other k v Hnd Hr) in Ha. discriminate. }
  rewrite Hrev. reflexivity.
Qed.

End DataIds.

Section RunReturns.

Import MakeCoaddTempExp.
Import MakeCoaddTempExpNotions.

Variable config : Config.
Variable env : Env.
Variable patchRef : PatchRef.
Variable bbox : Box2I.

Let tempExpName : string := coaddName config ++ "Coadd_tempExp".

(** The references an iteration adds and the entries it writes, when it
    ends normally. *)
Lemma loop_body_returns (numExp ind : nat) (calExpRef : DataRef) (wcs : Wcs)
      (dataRefList : list OutRef) (w w1 : World) (st : Wcs * list OutRef) :
  loop_body config env patchRef bbox numExp (doPsfMatch config) tempExpName
            ind calExpRef wcs dataRefList w = (w1, Ok st) ->
  exists added new,
    snd st = (dataRefList ++ added)%list /\
    w_store w1 = (w_store w ++ new)%list /\
    added = (if skipped config env wcs bbox calExpRef then []
             else [tempExpRef_of config patchRef calExpRef]) /\
    (if doWrite config then map entry_ref new = added else new = []) /\
    (doWrite config = true -> desiredFwhm config <> None -> added = []).
Proof.
  unfold loop_body, skipped, tempExpRef_of.
  destruct (calexpExists calExpRef); simpl.
  - unfold bind, log, lift, try; simpl.
    destruct (getCalExp calExpRef (doPsfMatch config)) as [exposure|e]; [|discriminate].
    rewrite preprocessExposure_run.
    destruct (preprocess_result config env exposure wcs bbox) as [x|e]; simpl.
    + destruct (doWrite config) eqn:Hdw.
      * unfold put, bind, lift, store; simpl.
        destruct (env_put env tempExpName _ (DsExposure x)) as [[]|e]; [|discriminate].
        destruct (desiredFwhm config) as [fwhm|] eqn:Hd.
        -- rewrite persistInitPsf_run. discriminate.
        -- unfold ret. intros H. injection H as Hw Hst. subst w1 st. simpl.
           eexists. eexists. split; [reflexivity|]. split; [reflexivity|].
           split; [reflexivity|]. split; [reflexivity|].
           intros _ Hne. exfalso. apply Hne. reflexivity.
      * unfold ret. intros H. injection H as Hw Hst. subst w1 st. simpl.
        exists [mkOutRef tempExpName (dict_update (dataId calExpRef) (patch_dataId patchRef))], [].
        rewrite app_nil_r. repeat split; try reflexivity. intros Hf. discriminate Hf.
    + unfold ret. intros H. injection H as Hw Hst. subst w1 st. simpl.
      exists [], []. rewrite !app_nil_r.
      repeat split; try reflexivity. destruct (doWrite config); reflexivity.
  - unfold bind, log, ret. intros H. injection H as Hw Hst. subst w1 st. simpl.
    exists [], []. rewrite !app_nil_r.
    repeat split; try reflexivity. destruct (doWrite config); reflexivity.
Qed.

(** The references the loop returns and the entries it writes. *)
Lemma run_loop_returns (imageRefList : list DataRef) :
  forall (numExp ind : nat) (wcs : Wcs) (dataRefList l : list OutRef) (w w1 : World),
  run_loop config env patchRef bbox numExp (doPsfMatch config) tempExpName
           ind imageRefList wcs dataRefList w = (w1, Ok l) ->
  exists new,
    l = (dataRefList ++ map (tempExpRef_of config patchRef)
           (filter (fun r => negb (skipped config env wcs bbox r)) imageRefList))%list /\
    w_store w1 = (w_store w ++ new)%list /\
    (if doWrite config
     then map entry_ref new =
          map (tempExpRef_of config patchRef)
              (filter (fun r => negb (skipped config env wcs bbox r)) imageRefList)
     else new = []) /\
    (doWrite config = true -> desiredFwhm config <> None ->
     filter (fun r => negb (skipped config env wcs bbox r)) imageRefList = []).
Proof.
  induction imageRefList as [|a rest IH]; intros numExp ind wcs acc l w w1; simpl.
  - unfold ret. intros H. injection H as Hw Hl. subst w1 l.
    exists []. rewrite !app_nil_r. repeat split; try reflexivity.
    destruct (doWrite config); reflexivity.
  - unfold bind.
    destruct (loop_body config env patchRef bbox numExp (doPsfMatch config) tempExpName
                        ind a wcs acc w) as [w0 r0] eqn:Hb.
    destruct r0 as [st|e]; [|discriminate].
    pose proof (@loop_body_wcs config env patchRef bbox tempExpName
                  numExp ind a wcs acc w w0 st Hb) as Hwcs.
    destruct (@loop_body_returns numExp ind a wcs acc w w0 st Hb)
      as [added1 [new1 [Hs1 [Hw1 [Ha1 [Hd1 Hn1]]]]]].
    intros Hrest. destruct (IH _ _ _ _ _ _ _ Hrest) as [new2 [Hl [Hw2 [Hd2 Hn2]]]].
    rewrite Hwcs in *.
    exists (new1 ++ new2)%list.
    assert (Hadd : (added1 ++ map (tempExpRef_of config patchRef)
                     (filter (fun r => negb (skipped config env wcs bbox r)) rest))%list
                   = map (tempExpRef_of config patchRef)
                         (if negb (skipped config env wcs bbox a)
                          then a :: filter (fun r => negb (skipped config env wcs bbox r)) rest
                          else filter (fun r => negb (skipped config env wcs bbox r)) rest)).
    { rewrite Ha1. destruct (skipped config env wcs bbox a); reflexivity. }
    rewrite <- Hadd.
    split; [rewrite Hl, Hs1, app_assoc; reflexivity|].
    split; [rewrite Hw2, Hw1, app_assoc; reflexivity|].
    split.
    + destruct (doWrite config).
      * rewrite map_app, Hd1, Hd2. reflexivity.
      * rewrite Hd1, Hd2. reflexivity.
    + intros Hdw Hne. specialize (Hn1 Hdw Hne). specialize (Hn2 Hdw Hne).
      rewrite Ha1 in Hn1.
      destruct (skipped config env wcs bbox a); simpl; [exact Hn2|discriminate Hn1].
Qed.

(** Without [doWrite] an iteration leaves the repository alone, however it ends. *)
Lemma loop_body_no_write (numExp ind : nat) (doPsf : bool) (name : string)
      (calExpRef : DataRef) (wcs : Wcs) (dataRefList : list OutRef) (w : World) :
  doWrite config = false ->
  w_store (fst (loop_body config env patchRef bbox numExp doPsf name
                          ind calExpRef wcs dataRefList w)) = w_store w.
Proof.
  intros Hdw. unfold loop_body. rewrite Hdw.
  destruct (calexpExists calExpRef); simpl; [|reflexivity].
  unfold bind, log, lift, try; simpl.
  destruct (getCalExp calExpRef doPsf) as [exposure|e]; [|reflexivity].
  rewrite preprocessExposure_run.
  destruct (preprocess_result config env exposure wcs bbox); reflexivity.
Qed.

Lemma run_loop_no_write (doPsf : bool) (name : string) (imageRefList : list DataRef) :
  forall (numExp ind : nat) (wcs : Wcs) (dataRefList : list OutRef) (w : World),
  doWrite config = false ->
  w_store (fst (run_loop config env patchRef bbox numExp doPsf name
                         ind imageRefList wcs dataRefList w)) = w_store w.
Proof.
  induction imageRefList as [|a rest IH]; intros numExp ind wcs acc w Hdw; simpl.
  - reflexivity.
  - unfold bind.
    pose proof (loop_body_no_write numExp ind doPsf name a wcs acc w Hdw) as Hb.
    destruct (loop_body config env patchRef bbox numExp doPsf name ind a wcs acc w)
      as [w0 r0].
    simpl in Hb. destruct r0 as [st|e]; [|exact Hb].
    rewrite IH by exact Hdw. exact Hb.
Qed.

End RunReturns.

Section RunFacts.

Import MakeCoaddTempExp.
Import MakeCoaddTempExpNotions.

Variable config : Config.
Variable env : Env.
Variable patchRef : PatchRef.

(** What a normal return of [run] tells about its course. *)
Lemma run_ok_inv (w w1 : World) (s : Struct) :
  run config env patchRef w = (w1, Ok s) ->
  exists skyInfo imageRefList w0,
    env_getSkyInfo env patchRef = Ok skyInfo /\
    selectExposures env patchRef (wcs skyInfo) (bbox skyInfo) = Ok imageRefList /\
    imageRefList <> [] /\
    w_store w0 = w_store w /\
    run_loop config env patchRef (bbox skyInfo) (List.length imageRefList)
             (doPsfMatch config) (coaddName config ++ "Coadd_tempExp")
             0 imageRefList (wcs skyInfo) [] w0 = (w1, Ok (dataRefList s)).
Proof.
  unfold run, bind, lift.
  destruct (env_getSkyInfo env patchRef) as [skyInfo|e] eqn:Hsky; [|discriminate].
  destruct (selectExposures env patchRef (wcs skyInfo) (bbox skyInfo))
    as [imageRefList|e] eqn:Hsel; [|discriminate].
  destruct imageRefList as [|a rest] eqn:Hl; [discriminate|]. rewrite <- Hl.
  assert (Hlen : (List.length imageRefList <? 1)%nat = false) by (rewrite Hl; reflexivity).
  rewrite Hlen. unfold log at 1.
  change (match desiredFwhm config with Some _ => true | None => false end)
    with (doPsfMatch config).
  intros H. exists skyInfo, imageRefList.
  match type of H with
  | context [(if ?b then ?m1 else ?m2) ?w0] =>
      assert (Hw0 : exists w0', (if b then m1 else m2) w0 = (w0', Ok tt)
                                /\ w_store w0' = w_store w)
        by (destruct b; eexists; split; reflexivity);
      destruct Hw0 as [w0' [Hw0 Hst0]]; rewrite Hw0 in H
  end.
  exists w0'. split; [reflexivity|]. split; [rewrite Hl; exact Hsel|].
  split; [rewrite Hl; discriminate|]. split; [exact Hst0|].
  match type of H with
  | context [run_loop ?c ?e ?p ?b ?n ?d ?t ?i ?r ?wc ?a ?w0] =>
      destruct (run_loop c e p b n d t i r wc a w0) as [w2 [l|ex]]
  end; [|discriminate].
  unfold ret in H. injection H as Hw Hs. subst w1 s. reflexivity.
Qed.

(** X1: when [run] returns, [dataRefList] holds, in the order of the
    selection, one reference for each selected exposure that was not
    skipped, of dataset type [<coaddName>Coadd_tempExp] and with the data id
    of the exposure updated by that of the patch. *)
Theorem run_returns_unskipped (skyInfo : SkyInfo) (imageRefList : list DataRef)
        (w w1 : World) (s : Struct) :
  env_getSkyInfo env patchRef = Ok skyInfo ->
  selectExposures env patchRef (wcs skyInfo) (bbox skyInfo) = Ok imageRefList ->
  run config env patchRef w = (w1, Ok s) ->
  dataRefList s =
  map (tempExpRef_of config patchRef)
      (filter (fun r => negb (skipped config env (wcs skyInfo) (bbox skyInfo) r))
              imageRefList).
Proof.
  intros Hsky Hsel Hrun.
  destruct (@run_ok_inv w w1 s Hrun) as [sky' [refs' [w0 [Hsky' [Hsel' [_ [_ Hloop]]]]]]].
  rewrite Hsky in Hsky'. injection Hsky' as Hs. subst sky'.
  rewrite Hsel in Hsel'. injection Hsel' as Hr. subst refs'.
  destruct (@run_loop_returns config env patchRef (bbox skyInfo) imageRefList
              _ _ _ _ _ _ _ Hloop) as [new [Hl _]].
  exact Hl.
Qed.

(** X2: with [doWrite] off, [run] leaves the repository as it found it,
    whether it returns or raises. *)
Theorem run_without_doWrite_writes_nothing (w : World) :
  doWrite config = false ->
  w_store (fst (run config env patchRef w)) = w_store w.
Proof.
  intros Hdw. unfold run, bind, lift.
  destruct (env_getSkyInfo env patchRef) as [skyInfo|e]; [|reflexivity].
  destruct (selectExposures env patchRef (wcs skyInfo) (bbox skyInfo))
    as [imageRefList|e]; [|reflexivity].
  destruct (List.length imageRefList <? 1)%nat; [reflexivity|].
  unfold log at 1.
  match goal with
  | |- context [(if ?b then ?m1 else ?m2) ?w0] =>
      assert (Hw0 : exists w0', (if b then m1 else m2) w0 = (w0', Ok tt)
                                /\ w_store w0' = w_store w)
        by (destruct b; eexists; split; reflexivity);
      destruct Hw0 as [w0' [Hw0 Hst0]]; rewrite Hw0
  end.
  match goal with
  | |- context [run_loop ?c ?e ?p ?b ?n ?d ?t ?i ?r ?wc ?a ?w0] =>
      pose proof (@run_loop_no_write c e p b d t r n i wc a w0 Hdw) as Hn;
      destruct (run_loop c e p b n d t i r wc a w0) as [w2 r2]
  end.
  simpl in Hn. destruct r2; simpl; rewrite Hn; exact Hst0.
Qed.

(** X3: with [doWrite] on and a FWHM configured, line 158 raises for the
    first exposure that is not skipped; so when [run] returns, every
    selected exposure was skipped, the list returned is empty and nothing
    was written. *)
Theorem run_with_initPsf_returns_nothing (skyInfo : SkyInfo)
        (imageRefList : list DataRef) (fwhm : R) (w w1 : World) (s : Struct) :
  doWrite config = true ->
  desiredFwhm config = Some fwhm ->
  env_getSkyInfo env patchRef = Ok skyInfo ->
  selectExposures env patchRef (wcs skyInfo) (bbox skyInfo) = Ok imageRefList ->
  run config env patchRef w = (w1, Ok s) ->
  forallb (skipped config env (wcs skyInfo) (bbox skyInfo)) imageRefList = true /\
  dataRefList s = [] /\
  w_store w1 = w_store w.
Proof.
  intros Hdw Hd Hsky Hsel Hrun.
  destruct (@run_ok_inv w w1 s Hrun) as [sky' [refs' [w0 [Hsky' [Hsel' [_ [Hst0 Hloop]]]]]]].
  rewrite Hsky in Hsky'. injection Hsky' as Hs. subst sky'.
  rewrite Hsel in Hsel'. injection Hsel' as Hr. subst refs'.
  destruct (@run_loop_returns config env patchRef (bbox skyInfo) imageRefList
              _ _ _ _ _ _ _ Hloop) as [new [Hl [Hw [Hnew Hnone]]]].
  assert (Hne : desiredFwhm config <> None) by (rewrite Hd; discriminate).
  specialize (Hnone Hdw Hne). rewrite Hdw in Hnew. rewrite Hnone in *. simpl in *.
  split; [|split; [exact Hl|]].
  - clear - Hnone. induction imageRefList as [|a rest IH]; [reflexivity|].
    simpl in *. destruct (skipped config env (wcs skyInfo) (bbox skyInfo) a); simpl in *.
    + apply IH. exact Hnone.
    + discriminate Hnone.
  - apply map_eq_nil in Hnew. subst new. rewrite Hw, app_nil_r. exact Hst0.
Qed.

(** X4: when [run] returns with [doWrite] on, it has written one dataset
    for each reference it returns, under the dataset type and data id of
    that reference and in the same order, and every one of them is an
    exposure. *)
Theorem run_writes_match_refs (w w1 : World) (s : Struct) :
  doWrite config = true ->
  run config env patchRef w = (w1, Ok s) ->
  exists new,
    w_store w1 = (w_store w ++ new)%list /\
    map entry_ref new = dataRefList s /\
    Forall (fun entry => exists x, se_dataset entry = DsExposure x) new.
Proof.
  intros Hdw Hrun.
  destruct (@run_ok_inv w w1 s Hrun) as [skyInfo [refs [w0 [Hsky [Hsel [_ [Hst0 Hloop]]]]]]].
  destruct (@run_loop_returns config env patchRef (bbox skyInfo) refs
              _ _ _ _ _ _ _ Hloop) as [new [Hl [Hw [Hnew _]]]].
  rewrite Hdw in Hnew. exists new.
  split; [rewrite Hw, Hst0; reflexivity|]. split; [rewrite Hl, Hnew; reflexivity|].
  destruct (@run_loop_store config env patchRef (bbox skyInfo)
              (coaddName config ++ "Coadd_tempExp") (doPsfMatch config) refs
              (List.length refs) 0%nat (wcs skyInfo) [] w0) as [new' [Hw' Fn]].
  rewrite Hloop in Hw'. simpl in Hw'. rewrite Hw in Hw'.
  apply app_inv_head in Hw'. subst new'.
  eapply Forall_impl; [|exact Fn].
  intros entry [x [warped [Hx _]]]. exists x. exact Hx.
Qed.

(** X5: every reference [run] returns has the dataset type
    [<coaddName>Coadd_tempExp], and its data id gives every key of the data
    id of the patch the value the patch has for it. *)
Theorem run_refs_carry_patch_id (w w1 : World) (s : Struct) (ref : OutRef) :
  NoDup (map fst (patch_dataId patchRef)) ->
  run config env patchRef w = (w1, Ok s) ->
  In ref (dataRefList s) ->
  out_datasetType ref = coaddName config ++ "Coadd_tempExp" /\
  forall k v, assoc (patch_dataId patchRef) k = Some v ->
              assoc (out_dataId ref) k = Some v.
Proof.
  intros Hnd Hrun Hin.
  destruct (@run_ok_inv w w1 s Hrun) as [skyInfo [refs [w0 [Hsky [Hsel [_ [Hst0 Hloop]]]]]]].
  destruct (@run_loop_returns config env patchRef (bbox skyInfo) refs
              _ _ _ _ _ _ _ Hloop) as [new [Hl _]].
  rewrite Hl in Hin. simpl in Hin. apply in_map_iff in Hin.
  destruct Hin as [r [Hr _]]. subst ref. unfold tempExpRef_of; simpl.
  split; [reflexivity|].
  intros k v Hk. rewrite (@dict_update_lookup_NoDup _ _ k Hnd), Hk. reflexivity.
Qed.

End RunFacts.

(** * Further properties of processCoadd.py *)

Section SetIsPrimaryFlagMore.

Import ProcessCoadd.

Variable config : Config.
Variable schema : Schema.
Variable skyInfo : SkyInfo.

(** The loop body writes the three flags only. *)
Lemma classify_reads (nChildKey : option Key) (box : Box2D) (s : Source) :
  src_centroidFlag (classify nChildKey box skyInfo s) = src_centroidFlag s /\
  src_centroid (classify nChildKey box skyInfo s) = src_centroid s /\
  src_coord (classify nChildKey box skyInfo s) = src_coord s /\
  src_nChild (classify nChildKey box skyInfo s) = src_nChild s.
Proof.
  unfold classify. destruct (src_centroidFlag s) eqn:Hf.
  - rewrite Hf. repeat split; reflexivity.
  - destruct nChildKey as [k|]; simpl.
    + destruct (src_nChild s =? 0); simpl; rewrite Hf; repeat split; reflexivity.
    + rewrite Hf. repeat split; reflexivity.
Qed.

(** Classifying a classified record changes nothing. *)
Lemma classify_idempotent (nChildKey : option Key) (box : Box2D) (s : Source) :
  classify nChildKey box skyInfo (classify nChildKey box skyInfo s)
  = classify nChildKey box skyInfo s.
Proof.
  unfold classify. destruct (src_centroidFlag s) eqn:Hf.
  - rewrite Hf. reflexivity.
  - destruct nChildKey as [k|]; simpl.
    + destruct (src_nChild s =? 0) eqn:Hn; simpl; rewrite Hf; simpl; rewrite ?Hn; reflexivity.
    + rewrite Hf. reflexivity.
Qed.

(** X7: a call that returns keeps the number of sources and, for every
    source, the centroid flag, the centroid, the sky position and the
    number of children: only the three flags are ever written. *)
Theorem setIsPrimaryFlag_writes_flags_only (sources sources' : list Source) :
  setIsPrimaryFlag config schema sources skyInfo = Ok sources' ->
  List.length sources' = List.length sources /\
  forall i s s',
    nth_error sources i = Some s ->
    nth_error sources' i = Some s' ->
    src_centroidFlag s' = src_centroidFlag s /\
    src_centroid s' = src_centroid s /\
    src_coord s' = src_coord s /\
    src_nChild s' = src_nChild s.
Proof.
  intros Hrun. rewrite (setIsPrimaryFlag_ok _ _ _ _ Hrun).
  split; [apply length_map|].
  intros i s s' Hi Hi'. rewrite nth_error_map, Hi in Hi'. simpl in Hi'.
  injection Hi' as Hs. subst s'. apply classify_reads.
Qed.

(** X8: calling the function again on the table it returned returns the
    same table. *)
Theorem setIsPrimaryFlag_idempotent (sources sources' : list Source) :
  setIsPrimaryFlag config schema sources skyInfo = Ok sources' ->
  setIsPrimaryFlag config schema sources' skyInfo = Ok sources'.
Proof.
  intros Hrun. pose proof (setIsPrimaryFlag_ok _ _ _ _ Hrun) as Hmap.
  unfold setIsPrimaryFlag in *.
  destruct (doDeblend config && _); [discriminate|].
  f_equal. rewrite Hmap at 2. rewrite Hmap, map_map.
  apply map_ext. intros s. apply classify_idempotent.
Qed.

(** X9: on a table in which no source is flagged primary yet, the sources
    flagged primary after the call have a known centroid, lie in the inner
    region of the patch and of the tract, and have no children when the
    schema has [deblend_nChild]. *)
Theorem setIsPrimaryFlag_primary_sound (sources sources' : list Source) (s' : Source) :
  Forall (fun s => detect_isPrimary s = false) sources ->
  setIsPrimaryFlag config schema sources skyInfo = Ok sources' ->
  In s' sources' ->
  detect_isPrimary s' = true ->
  src_centroidFlag s' = false /\
  detect_isPatchInner s' = true /\
  detect_isTractInner s' = true /\
  (In nChildKeyName schema -> src_nChild s' = 0).
Proof.
  intros Hfresh Hrun Hin Hprim.
  rewrite (setIsPrimaryFlag_ok _ _ _ _ Hrun) in Hin.
  apply in_map_iff in Hin. destruct Hin as [s [Hs Hins]]. subst s'.
  rewrite Forall_forall in Hfresh. specialize (Hfresh s Hins).
  revert Hprim. unfold classify.
  destruct (src_centroidFlag s) eqn:Hf; [intros H; congruence|].
  destruct (find_nChildKey schema) as [k|] eqn:Hk; simpl.
  - destruct (Z.eqb_spec (src_nChild s) 0) as [Hz|Hnz]; simpl.
    + intros H. apply andb_prop in H. destruct H as [Hp Ht].
      repeat split; try assumption. intros _. exact Hz.
    + intros H. congruence.
  - intros H. apply andb_prop in H. destruct H as [Hp Ht].
    repeat split; try assumption.
    intros Hin. destruct (find_nChildKey_present _ Hin) as [k Hk']. congruence.
Qed.

End SetIsPrimaryFlagMore.

(** * Properties of measurePsf.py *)

Section MeasurePsfFacts.

Import MeasurePsf.

Lemma truthy_false (z : Z) : truthy z = false <-> z = 0.
Proof.
  unfold truthy. destruct (Z.eqb_spec z 0) as [H|H]; simpl; split; intros H';
    congruence.
Qed.

(** The bit [k] of [a] decides whether [a & 2^k] is zero. *)
Lemma land_pow2_truthy (a k : Z) :
  0 <= k -> truthy (Z.land a (2 ^ k)) = Z.testbit a k.
Proof.
  intros Hk. destruct (Z.testbit a k) eqn:Hb.
  - destruct (truthy (Z.land a (2 ^ k))) eqn:Ht; [reflexivity|].
    apply truthy_false in Ht.
    assert (Hbit : Z.testbit (Z.land a (2 ^ k)) k = true).
    { rewrite Z.land_spec, Hb, Z.pow2_bits_true by exact Hk. reflexivity. }
    rewrite Ht, Z.bits_0 in Hbit. discriminate.
  - apply truthy_false. apply Z.bits_inj'. intros i Hi.
    rewrite Z.land_spec, Z.bits_0, Z.pow2_bits_eqb by exact Hk.
    destruct (Z.eqb_spec k i) as [Heq|Hne].
    + subst i. rewrite Hb. reflexivity.
    + apply andb_false_r.
Qed.

(** X10: [propagateFlag] leaves the id of [new] alone and clears none of
    its bits; a bit it sets is a bit of [flag]; and when [old] has any bit
    of [flag], [new] gets every bit of [flag], also those [old] lacks. *)
Theorem propagateFlag_bits (flag : Z) (old new : Source) :
  src_id (propagateFlag flag old new) = src_id new /\
  (forall i, Z.testbit (flagForDetection new) i = true ->
             Z.testbit (flagForDetection (propagateFlag flag old new)) i = true) /\
  (forall i, Z.testbit (flagForDetection (propagateFlag flag old new)) i = true ->
             Z.testbit (flagForDetection new) i = true \/ Z.testbit flag i = true) /\
  (Z.land (flagForDetection old) flag <> 0 ->
   forall i, Z.testbit flag i = true ->
             Z.testbit (flagForDetection (propagateFlag flag old new)) i = true) /\
  (Z.land (flagForDetection old) flag = 0 -> propagateFlag flag old new = new).
Proof.
  unfold propagateFlag.
  destruct (truthy (Z.land (flagForDetection old) flag)) eqn:Ht; simpl.
  - split; [reflexivity|]. split; [|split; [|split]].
    + intros i Hi. rewrite Z.lor_spec, Hi. reflexivity.
    + intros i Hi. rewrite Z.lor_spec in Hi. apply orb_prop in Hi. exact Hi.
    + intros _ i Hi. rewrite Z.lor_spec, Hi. apply orb_true_r.
    + intros H0. apply truthy_false in H0. congruence.
  - split; [reflexivity|]. split; [|split; [|split]].
    + intros i Hi. exact Hi.
    + intros i Hi. left. exact Hi.
    + intros Hne. apply truthy_false in Ht. contradiction.
    + reflexivity.
Qed.

(** X11: for a flag of one bit, that bit of [new] after the call is set
    exactly when it was set in [new] or in [old], every other bit of [new]
    is as before, and a second call changes nothing more. *)
Theorem propagateFlag_single_bit (k : Z) (old new : Source) :
  0 <= k ->
  Z.testbit (flagForDetection (propagateFlag (2 ^ k) old new)) k
  = Z.testbit (flagForDetection new) k || Z.testbit (flagForDetection old) k /\
  (forall i, i <> k ->
     Z.testbit (flagForDetection (propagateFlag (2 ^ k) old new)) i
     = Z.testbit (flagForDetection new) i) /\
  propagateFlag (2 ^ k) old (propagateFlag (2 ^ k) old new)
  = propagateFlag (2 ^ k) old new.
Proof.
  intros Hk. unfold propagateFlag. rewrite (land_pow2_truthy _ Hk).
  destruct (Z.testbit (flagForDetection old) k) eqn:Hb; simpl.
  - split; [|split].
    + rewrite Z.lor_spec, Z.pow2_bits_true by exact Hk.
      rewrite !orb_true_r. reflexivity.
    + intros i Hi. rewrite Z.lor_spec.
      destruct (Z.lt_ge_cases i 0) as [Hneg|Hpos].
      * rewrite (Z.testbit_neg_r (2 ^ k)) by exact Hneg. apply orb_false_r.
      * rewrite Z.pow2_bits_false by (intros H; apply Hi; symmetry; exact H).
        apply orb_false_r.
    + unfold setFlagForDetection. simpl. f_equal.
      rewrite <- Z.lor_assoc, Z.lor_diag. reflexivity.
  - split; [rewrite orb_false_r; reflexivity|].
    split; [intros i _; reflexivity|reflexivity].
Qed.

(** X12: [MeasurePsfTask.run] never returns.  Without an exposure or
    without sources it fails its assertions; otherwise, when the
    collaborators have selected the stars and determined the PSF, the
    record for the log reads the name [sdqaRatings], which is bound
    nowhere, and the call ends with [NameError]: no flag is propagated to
    the sources and the PSF is not attached to the exposure. *)
Theorem MeasurePsfTask_run_never_returns (env : Env) (exposure : option Exposure)
        (sources : list Source) (t : list Event) :
  (forall r, snd (run env exposure sources t) <> inr r) /\
  (exposure = None ->
   run env exposure sources t = (t, inl (AssertionError "No exposure provided"))) /\
  (exposure <> None -> sources = [] ->
   run env exposure sources t = (t, inl (AssertionError "No sources provided"))) /\
  (forall e selName selPolicy algName algPolicy selector cands determiner det numGood,
     exposure = Some e -> sources <> [] ->
     env_policy env "selectName" = Ok selName ->
     env_policy env "select" = Ok selPolicy ->
     env_policy env "algorithmName" = Ok algName ->
     env_policy env "algorithm" = Ok algPolicy ->
     env_makeStarSelector env selName selPolicy = Ok selector ->
     selector e sources = Ok cands ->
     env_makePsfDeterminer env algName algPolicy = Ok determiner ->
     determiner e cands (env_metadata env) = Ok det ->
     metadata_value (snd det) "numGoodStars" = Ok numGood ->
     run env exposure sources t
     = ((t ++ [EvMeasuringPsf])%list, inl (Builtin (NameError "sdqaRatings")))).
Proof.
  split; [|split; [|split]].
  - intros r. unfold run.
    destruct exposure as [e|]; [|simpl; discriminate].
    destruct (List.length sources =? 0)%nat; [simpl; discriminate|].
    unfold ebind, ecall, emit.
    destruct (env_policy env "selectName") as [selName|x]; [|simpl; discriminate].
    destruct (env_policy env "select") as [selPolicy|x]; [|simpl; discriminate].
    destruct (env_policy env "algorithmName") as [algName|x]; [|simpl; discriminate].
    destruct (env_policy env "algorithm") as [algPolicy|x]; [|simpl; discriminate].
    destruct (env_makeStarSelector env selName selPolicy) as [selector|x];
      [|simpl; discriminate].
    destruct (selector e sources) as [cands|x]; [|simpl; discriminate].
    destruct (env_makePsfDeterminer env algName algPolicy) as [determiner|x];
      [|simpl; discriminate].
    destruct (determiner e cands (env_metadata env)) as [det|x]; [|simpl; discriminate].
    destruct (metadata_value (snd det) "numGoodStars") as [numGood|x];
      simpl; discriminate.
  - intros H. subst exposure. reflexivity.
  - intros He Hs. subst sources. destruct exposure as [e|]; [reflexivity|contradiction].
  - intros e selName selPolicy algName algPolicy selector cands determiner det numGood
           He Hs H1 H2 H3 H4 H5 H6 H7 H8 H9.
    subst exposure. unfold run.
    destruct sources as [|s0 rest]; [contradiction|]. simpl Nat.eqb. cbv iota.
    unfold ebind, ecall, emit.
    rewrite H1, H2, H3, H4, H5, H6, H7, H8, H9. reflexivity.
Qed.

End MeasurePsfFacts.

(** * Properties of CoaddArgumentParser *)

Section ArgumentParserFacts.

Import MakeCoaddTempExp.
Import CoaddArgumentParser.

(** A data id is complete when it has every valid key. *)
Lemma first_missing_None (validKeys : list string) (dataId : DataId) :
  first_missing validKeys dataId = None <-> forallb (has_key dataId) validKeys = true.
Proof.
  induction validKeys as [|key rest IH]; simpl; [tauto|].
  destruct (has_key dataId key); simpl; [exact IH|].
  split; discriminate.
Qed.

Lemma first_missing_Some (validKeys : list string) (dataId : DataId) (key : string) :
  first_missing validKeys dataId = Some key ->
  In key validKeys /\ has_key dataId key = false.
Proof.
  induction validKeys as [|k rest IH]; simpl; [discriminate|].
  destruct (has_key dataId k) eqn:Hk.
  - intros H. destruct (IH H) as [Hin Hno]. split; [right; exact Hin|exact Hno].
  - intros H. injection H as H. subst k. split; [left; reflexivity|exact Hk].
Qed.

Lemma makeRefs_ok (datasetType : string) (validKeys : list string)
      (dataIdList : list DataId) :
  forall (dataRefList refs : list OutRef),
  makeRefs datasetType validKeys dataIdList dataRefList = DataRefList refs <->
  (forallb (fun dataId => forallb (has_key dataId) validKeys) dataIdList = true /\
   refs = (dataRefList ++ map (mkOutRef datasetType) dataIdList)%list).
Proof.
  induction dataIdList as [|d rest IH]; intros acc refs; simpl.
  - rewrite app_nil_r. split.
    + intros H. injection H as H. split; [reflexivity|symmetry; exact H].
    + intros [_ H]. subst refs. reflexivity.
  - destruct (first_missing validKeys d) as [key|] eqn:Hm.
    + split; [discriminate|]. intros [H _]. apply andb_prop in H. destruct H as [H _].
      apply first_missing_None in H. congruence.
    + apply first_missing_None in Hm. rewrite Hm. simpl.
      rewrite IH, <- app_assoc. reflexivity.
Qed.

Lemma makeRefs_error (datasetType : string) (validKeys : list string)
      (dataIdList : list DataId) :
  forall (dataRefList : list OutRef) (message : string),
  makeRefs datasetType validKeys dataIdList dataRefList = ParserError message ->
  exists pre dataId post key,
    dataIdList = (pre ++ dataId :: post)%list /\
    forallb (fun d => forallb (has_key d) validKeys) pre = true /\
    In key validKeys /\
    has_key dataId key = false /\
    message = "--id must include " ++ key.
Proof.
  induction dataIdList as [|d rest IH]; intros acc message; simpl; [discriminate|].
  destruct (first_missing validKeys d) as [key|] eqn:Hm.
  - intros H. injection H as H. subst message.
    destruct (first_missing_Some _ _ Hm) as [Hin Hno].
    exists [], d, rest, key. repeat split; try assumption.
  - intros H. destruct (IH _ _ H) as [pre [d' [post [key [Hl [Hpre [Hin [Hno Hmsg]]]]]]]].
    exists (d :: pre), d', post, key. subst rest.
    repeat split; try assumption.
    simpl. apply first_missing_None in Hm. rewrite Hm. exact Hpre.
Qed.

(** X13: when the butler gives the valid keys, [_makeDataRefList] stores a
    list of references exactly when every data id has every valid key, and
    the list then has one reference per data id, in order, of dataset type
    [<coaddName>Coadd]. *)
Theorem makeDataRefList_ok_iff (dataRefLevel : string) (namespace : Namespace)
        (validKeys : list string) (refs : list OutRef) :
  ns_getKeys namespace (ns_coaddName namespace ++ "Coadd") dataRefLevel = Ok validKeys ->
  (_makeDataRefList dataRefLevel namespace = Ok (DataRefList refs) <->
   forallb (fun dataId => forallb (has_key dataId) validKeys) (ns_dataIdList namespace)
   = true /\
   refs = map (mkOutRef (ns_coaddName namespace ++ "Coadd")) (ns_dataIdList namespace)).
Proof.
  intros Hk. unfold _makeDataRefList. rewrite Hk. simpl.
  rewrite <- (makeRefs_ok (ns_coaddName namespace ++ "Coadd") validKeys
                          (ns_dataIdList namespace) [] refs).
  split; [intros H; injection H as H; exact H|intros H; rewrite H; reflexivity].
Qed.

(** X14: when [_makeDataRefList] ends in the parser's error, the message
    names a valid key that is missing from the first data id that is not
    complete; no reference is stored. *)
Theorem makeDataRefList_error (dataRefLevel : string) (namespace : Namespace)
        (message : string) :
  _makeDataRefList dataRefLevel namespace = Ok (ParserError message) ->
  exists validKeys pre dataId post key,
    ns_getKeys namespace (ns_coaddName namespace ++ "Coadd") dataRefLevel = Ok validKeys /\
    ns_dataIdList namespace = (pre ++ dataId :: post)%list /\
    forallb (fun d => forallb (has_key d) validKeys) pre = true /\
    In key validKeys /\
    has_key dataId key = false /\
    message = "--id must include " ++ key.
Proof.
  unfold _makeDataRefList.
  destruct (ns_getKeys namespace (ns_coaddName namespace ++ "Coadd") dataRefLevel)
    as [validKeys|e]; simpl; [|discriminate].
  intros H. injection H as H.
  destruct (makeRefs_error _ _ _ _ H) as [pre [d [post [key Hrest]]]].
  exists validKeys, pre, d, post, key. split; [reflexivity|exact Hrest].
Qed.

End ArgumentParserFacts.

(** * Properties of ProcessCoaddTask.run *)

Section ProcessCoaddRunFacts.

Import ProcessCoadd.
Import ProcessCoaddRun.

Variable config : RunConfig.
Variable schema : Schema.
Variable env : Env.

Ltac run_cases H :=
  repeat match type of H with
         | context [match ?x with _ => _ end] =>
             match x with
             | context [match _ with _ => _ end] => fail 1
             | _ => destruct x eqn:?; simpl in H
             end
         | context [if ?x then _ else _] =>
             match x with
             | context [match _ with _ => _ end] => fail 1
             | _ => destruct x eqn:?; simpl in H
             end
         end.

Lemma In_app_singleton {A} (t : list A) (a b : A) :
  In a (t ++ [b]) -> ~ In a t -> a = b.
Proof.
  intros Hin Hnot. apply in_app_or in Hin. destruct Hin as [H|[H|[]]].
  - contradiction.
  - symmetry. exact H.
Qed.

(** X15: a source table that [run] writes is written under
    [<coaddName>Coadd_src], with [doWriteSources] on, and is what the
    propagation of flags returned for a table that [setIsPrimaryFlag]
    returned; it is the table of the result of [run]. *)
Theorem run_writes_classified_sources (dataId : DataId) (t : list Event)
        (sources : list Source) (datasetType : string) :
  In (EvPut sources datasetType) (fst (run config schema env dataId t)) ->
  ~ In (EvPut sources datasetType) t ->
  datasetType = (coaddName (rc_config config) ++ "Coadd_") ++ "src" /\
  doWriteSources config = true /\
  exists skyInfo exposure coadd raw classified,
    setIsPrimaryFlag (rc_config config) schema raw skyInfo = Ok classified /\
    env_propagateFlags env classified coadd = Ok sources /\
    snd (run config schema env dataId t) = inr (mkResult exposure (Some sources) coadd).
Proof.
  intros Hin Hnot.
  unfold run, put, ebind, ecall, emit, eret in *. simpl in *.
  run_cases Hin;
    try (apply (In_app_singleton _ _ _ Hin) in Hnot; discriminate Hnot).
  all: apply in_app_or in Hin; destruct Hin as [Hin|[Hin|[]]];
    [apply (In_app_singleton _ _ _ Hin) in Hnot; discriminate Hnot|].
  all: injection Hin as Hs Hn; subst.
  all: split; [reflexivity|]; split; [reflexivity|].
  all: match goal with
       | H1 : setIsPrimaryFlag _ _ ?raw ?sky = Ok ?cl,
         H2 : env_propagateFlags _ ?cl ?co = Ok _ |- _ =>
           eexists sky, _, co, raw, cl; split; [exact H1|split; [exact H2|]]
       end.
  all: reflexivity.
Qed.

(** X16: when the configuration says that the deblender ran and the schema
    has no [deblend_nChild], [run] writes no source table, and a result it
    returns has no sources: a table of sources never leaves [run]
    unclassified. *)
Theorem run_schema_inconsistency_writes_nothing (dataId : DataId) (t : list Event) :
  doDeblend (rc_config config) = true ->
  ~ In nChildKeyName schema ->
  fst (run config schema env dataId t) = (t ++ [EvProcessing dataId])%list /\
  (forall res, snd (run config schema env dataId t) = inr res -> res_sources res = None).
Proof.
  intros Hd Hno.
  assert (Hset : forall raw skyInfo,
            setIsPrimaryFlag (rc_config config) schema raw skyInfo =
            Raise (RuntimeError
                     "Ran the deblender but cannot find 'deblend_nChild' in the source table")).
  { intros raw skyInfo. unfold setIsPrimaryFlag.
    rewrite Hd, (find_nChildKey_absent _ Hno). reflexivity. }
  unfold run, put, ebind, ecall, emit, eret. simpl.
  destruct (env_getSkyInfo env _ dataId) as [skyInfo|e]; [|split; [reflexivity|discriminate]].
  destruct (env_get env _) as [coadd0|e]; [|split; [reflexivity|discriminate]].
  destruct (doScaleVariance config).
  - destruct (env_scaleVariance env coadd0 (mask config)) as [coadd1|e];
      [|split; [reflexivity|discriminate]].
    destruct (env_process env dataId coadd1) as [[[coadd expo] [raw|]]|e]; simpl;
      [rewrite Hset|..]; split; try reflexivity; try discriminate.
    intros res H. injection H as H. subst res. reflexivity.
  - destruct (env_process env dataId coadd0) as [[[coadd expo] [raw|]]|e]; simpl;
      [rewrite Hset|..]; split; try reflexivity; try discriminate.
    intros res H. injection H as H. subst res. reflexivity.
Qed.

End ProcessCoaddRunFacts.

(** * The further properties at concrete inputs *)

Section ClosedExtra.

Import MakeCoaddTempExp.
Import MakeCoaddTempExpNotions.

Lemma ex_run_plain :
  run cfg_nomatch (ex_env_plain [ex_missing; ex_good]) ex_patchRef emptyWorld
  = (fst (run cfg_nomatch (ex_env_plain [ex_missing; ex_good]) ex_patchRef emptyWorld),
     Ok (mkStruct [tempExpRef_of cfg_nomatch ex_patchRef ex_good])).
Proof. reflexivity. Qed.

Lemma run_returns_unskipped_witness :
  env_getSkyInfo (ex_env_plain [ex_missing; ex_good]) ex_patchRef
  = Ok (mkSkyInfo ex_wcs ex_bbox) /\
  selectExposures (ex_env_plain [ex_missing; ex_good]) ex_patchRef ex_wcs ex_bbox
  = Ok [ex_missing; ex_good] /\
  [tempExpRef_of cfg_nomatch ex_patchRef ex_good]
  = map (tempExpRef_of cfg_nomatch ex_patchRef)
        (filter (fun r => negb (skipped cfg_nomatch (ex_env_plain [ex_missing; ex_good])
                                        ex_wcs ex_bbox r))
                [ex_missing; ex_good]).
Proof.
  split; [reflexivity|]. split; [reflexivity|].
  apply (@run_returns_unskipped cfg_nomatch (ex_env_plain [ex_missing; ex_good]) ex_patchRef
           (mkSkyInfo ex_wcs ex_bbox) [ex_missing; ex_good] emptyWorld _
           (mkStruct [tempExpRef_of cfg_nomatch ex_patchRef ex_good])
           eq_refl eq_refl ex_run_plain).
Defined.

Lemma run_without_doWrite_writes_nothing_witness :
  doWrite cfg_nowrite = false /\
  w_store (fst (run cfg_nowrite (ex_env_plain [ex_missing; ex_good]) ex_patchRef emptyWorld))
  = [].
Proof.
  split; [reflexivity|].
  apply (@run_without_doWrite_writes_nothing cfg_nowrite
           (ex_env_plain [ex_missing; ex_good]) ex_patchRef emptyWorld eq_refl).
Defined.

Lemma ex_run_persist :
  run cfg_persist (ex_env_plain [ex_missing]) ex_patchRef emptyWorld
  = (fst (run cfg_persist (ex_env_plain [ex_missing]) ex_patchRef emptyWorld),
     Ok (mkStruct [])).
Proof. reflexivity. Qed.

Lemma run_with_initPsf_returns_nothing_witness :
  doWrite cfg_persist = true /\
  desiredFwhm cfg_persist = Some 1%R /\
  forallb (skipped cfg_persist (ex_env_plain [ex_missing]) ex_wcs ex_bbox) [ex_missing]
  = true /\
  w_store (fst (run cfg_persist (ex_env_plain [ex_missing]) ex_patchRef emptyWorld)) = [].
Proof.
  split; [reflexivity|]. split; [reflexivity|].
  destruct (@run_with_initPsf_returns_nothing cfg_persist (ex_env_plain [ex_missing])
              ex_patchRef (mkSkyInfo ex_wcs ex_bbox) [ex_missing] 1%R emptyWorld _
              (mkStruct []) eq_refl eq_refl eq_refl eq_refl ex_run_persist)
    as [H1 [_ H3]].
  split; [exact H1|exact H3].
Defined.

Lemma run_writes_match_refs_witness :
  doWrite cfg_nomatch = true /\
  exists new,
    w_store (fst (run cfg_nomatch (ex_env_plain [ex_missing; ex_good]) ex_patchRef
                      emptyWorld)) = new /\
    map entry_ref new = [tempExpRef_of cfg_nomatch ex_patchRef ex_good].
Proof.
  split; [reflexivity|].
  destruct (@run_writes_match_refs cfg_nomatch (ex_env_plain [ex_missing; ex_good])
              ex_patchRef emptyWorld _
              (mkStruct [tempExpRef_of cfg_nomatch ex_patchRef ex_good])
              eq_refl ex_run_plain) as [new [Hw [Hm _]]].
  exists new. split; [exact Hw|exact Hm].
Defined.

Lemma ex_patch_keys : NoDup (map fst (patch_dataId ex_patchRef)).
Proof.
  simpl. repeat constructor; simpl; intros H;
    repeat (destruct H as [H|H]; [discriminate H|]); exact H.
Qed.

Lemma run_refs_carry_patch_id_witness :
  NoDup (map fst (patch_dataId ex_patchRef)) /\
  In (tempExpRef_of cfg_nomatch ex_patchRef ex_good)
     [tempExpRef_of cfg_nomatch ex_patchRef ex_good] /\
  assoc (out_dataId (tempExpRef_of cfg_nomatch ex_patchRef ex_good)) "tract" = Some "0".
Proof.
  split; [exact ex_patch_keys|]. split; [left; reflexivity|].
  destruct (@run_refs_carry_patch_id cfg_nomatch (ex_env_plain [ex_missing; ex_good])
              ex_patchRef emptyWorld _
              (mkStruct [tempExpRef_of cfg_nomatch ex_patchRef ex_good])
              (tempExpRef_of cfg_nomatch ex_patchRef ex_good)
              ex_patch_keys ex_run_plain (or_introl eq_refl)) as [_ H].
  apply H. reflexivity.
Defined.

End ClosedExtra.

Section ClosedExtraProcessCoadd.

Import ProcessCoadd.

Lemma ex_sources_fresh : Forall (fun s => detect_isPrimary s = false) ex_sources.
Proof. repeat constructor. Qed.

Lemma setIsPrimaryFlag_writes_flags_only_witness :
  setIsPrimaryFlag ex_pc_config ex_schema_deblend ex_sources ex_skyInfo = Ok ex_classified /\
  List.length ex_classified = 3%nat.
Proof.
  split; [exact ex_setIsPrimaryFlag|].
  destruct (@setIsPrimaryFlag_writes_flags_only ex_pc_config ex_schema_deblend ex_skyInfo
              ex_sources ex_classified ex_setIsPrimaryFlag) as [H _].
  exact H.
Defined.

Lemma setIsPrimaryFlag_idempotent_witness :
  setIsPrimaryFlag ex_pc_config ex_schema_deblend ex_sources ex_skyInfo = Ok ex_classified /\
  setIsPrimaryFlag ex_pc_config ex_schema_deblend ex_classified ex_skyInfo = Ok ex_classified.
Proof.
  split; [exact ex_setIsPrimaryFlag|].
  apply (@setIsPrimaryFlag_idempotent ex_pc_config ex_schema_deblend ex_skyInfo
           ex_sources ex_classified ex_setIsPrimaryFlag).
Defined.

Lemma setIsPrimaryFlag_primary_sound_witness :
  Forall (fun s => detect_isPrimary s = false) ex_sources /\
  setIsPrimaryFlag ex_pc_config ex_schema_deblend ex_sources ex_skyInfo = Ok ex_classified /\
  forall s', In s' ex_classified -> detect_isPrimary s' = true ->
             src_centroidFlag s' = false /\ detect_isPatchInner s' = true /\
             detect_isTractInner s' = true /\
             (In nChildKeyName ex_schema_deblend -> src_nChild s' = 0).
Proof.
  split; [exact ex_sources_fresh|]. split; [exact ex_setIsPrimaryFlag|].
  intros s' Hin Hp.
  apply (@setIsPrimaryFlag_primary_sound ex_pc_config ex_schema_deblend ex_skyInfo
           ex_sources ex_classified s' ex_sources_fresh ex_setIsPrimaryFlag Hin Hp).
Defined.

End ClosedExtraProcessCoadd.

Section ClosedExtraOther.

Lemma propagateFlag_single_bit_witness :
  0 <= 3 /\
  Z.testbit (MeasurePsf.flagForDetection
               (MeasurePsf.propagateFlag (2 ^ 3) (MeasurePsf.mkSource 1 12)
                                         (MeasurePsf.mkSource 2 1))) 3
  = Z.testbit 1 3 || Z.testbit 12 3.
Proof.
  assert (H : 0 <= 3) by lia.
  split; [exact H|].
  destruct (@propagateFlag_single_bit 3 (MeasurePsf.mkSource 1 12)
              (MeasurePsf.mkSource 2 1) H) as [H1 _].
  exact H1.
Defined.

Lemma makeDataRefList_ok_iff_witness :
  CoaddArgumentParser.ns_getKeys ex_namespace "deepCoadd" "sensor"
  = Ok ["tract"; "patch"; "filter"] /\
  CoaddArgumentParser._makeDataRefList "sensor" ex_namespace
  = Ok (CoaddArgumentParser.DataRefList
          (map (MakeCoaddTempExp.mkOutRef "deepCoadd")
               (CoaddArgumentParser.ns_dataIdList ex_namespace))).
Proof.
  split; [reflexivity|].
  apply (@makeDataRefList_ok_iff "sensor" ex_namespace ["tract"; "patch"; "filter"]
           (map (MakeCoaddTempExp.mkOutRef "deepCoadd")
                (CoaddArgumentParser.ns_dataIdList ex_namespace)) eq_refl).
  split; reflexivity.
Defined.

Lemma makeDataRefList_error_witness :
  CoaddArgumentParser._makeDataRefList "sensor" ex_namespace_bad
  = Ok (CoaddArgumentParser.ParserError "--id must include patch") /\
  exists validKeys pre dataId post key,
    CoaddArgumentParser.ns_dataIdList ex_namespace_bad = (pre ++ dataId :: post)%list /\
    In key validKeys /\
    CoaddArgumentParser.has_key dataId key = false /\
    "--id must include patch" = "--id must include " ++ key.
Proof.
  split; [reflexivity|].
  destruct (@makeDataRefList_error "sensor" ex_namespace_bad "--id must include patch"
              eq_refl) as [validKeys [pre [d [post [key [_ [Hl [_ [Hin [Hno Hm]]]]]]]]]].
  exists validKeys, pre, d, post, key. repeat split; assumption.
Defined.

Lemma ex_run_put :
  In (ProcessCoaddRun.EvPut ex_classified "deepCoadd_src")
     (fst (ProcessCoaddRun.run ex_run_config ex_schema_deblend ex_run_env
                               [("tract", "0")] [])).
Proof. simpl. right. left. reflexivity. Qed.

Lemma run_writes_classified_sources_witness :
  In (ProcessCoaddRun.EvPut ex_classified "deepCoadd_src")
     (fst (ProcessCoaddRun.run ex_run_config ex_schema_deblend ex_run_env
                               [("tract", "0")] [])) /\
  ~ In (ProcessCoaddRun.EvPut ex_classified "deepCoadd_src") [] /\
  ProcessCoaddRun.doWriteSources ex_run_config = true /\
  exists skyInfo raw classified,
    ProcessCoadd.setIsPrimaryFlag (ProcessCoaddRun.rc_config ex_run_config)
                                  ex_schema_deblend raw skyInfo = Ok classified.
Proof.
  split; [exact ex_run_put|]. split; [intros []|].
  destruct (@run_writes_classified_sources ex_run_config ex_schema_deblend ex_run_env
              [("tract", "0")] [] ex_classified "deepCoadd_src" ex_run_put (fun H => H))
    as [_ [Hdw [skyInfo [expo [coadd [raw [classified [Hset _]]]]]]]].
  split; [exact Hdw|]. exists skyInfo, raw, classified. exact Hset.
Defined.

Lemma run_schema_inconsistency_writes_nothing_witness :
  ProcessCoadd.doDeblend (ProcessCoaddRun.rc_config ex_run_config) = true /\
  ~ In ProcessCoadd.nChildKeyName ex_schema_plain /\
  fst (ProcessCoaddRun.run ex_run_config ex_schema_plain ex_run_env [("tract", "0")] [])
  = [ProcessCoaddRun.EvProcessing [("tract", "0")]].
Proof.
  split; [reflexivity|]. split; [exact ex_no_nChild|].
  destruct (@run_schema_inconsistency_writes_nothing ex_run_config ex_schema_plain
              ex_run_env [("tract", "0")] [] eq_refl ex_no_nChild) as [H _].
  exact H.
Defined.

End ClosedExtraOther.
